(** * Bootstrap resampling notebook: estimator, resampler, harness

    A shallow embedding of the three functions of the bootstrap notebook,

      - [fair]               the ratio estimator for the label ["H"],
      - [bootstrap_data]     one resampling with replacement,
      - [bootstrap_function] the loop that resamples and evaluates,

    together with the parts of Python and NumPy they call.

    Conventions of the embedding.
      - A Python exception is a value [Err e]; a normal return is [Ok v].
      - NumPy arrays live in a heap and are passed by reference, as in
        Python; a function that builds an array allocates a fresh cell.
      - The global generator [np.random] is a field of the interpreter
        state.  Its output is an arbitrary infinite sequence of raw words,
        so every statement quantified over the state covers every random
        source.
      - The state also records the arguments of every call of the
        estimator, so that which calls were made can be stated.
      - float64 values are kept as exact rationals (plus infinities and
        NaN); int64 counts are kept in [Z], an array being far shorter
        than 2^63. *)

From stdpp Require Import gmap strings list fin_maps sorting.
From Stdlib Require Import QArith Lqa.
From Stdlib Require Import Floats.SpecFloat.

Local Open Scope Z_scope.

(** ** Python results *)

(** [ReferenceError] stands for a reference to no array.  Python code
    cannot produce one, a name keeping its array alive; the constructor
    makes reading the heap total. *)
Inductive exception : Type :=
  | ZeroDivisionError
  | ValueError (msg : string)
  | IndexError
  | ReferenceError.

Inductive result (X : Type) : Type :=
  | Ok (x : X)
  | Err (e : exception).
Arguments Ok {X} x.
Arguments Err {X} e.

(** ** Numbers *)

(** An IEEE double, with the finite values kept exact. *)
Inductive pyfloat : Type :=
  | Fin (q : Q)
  | Inf (negative : bool)
  | NaN.

(** The scalars that meet in [fair]: Python's own [int] and [float], and
    NumPy's [int64] (the element type of the counts array). *)
Inductive scalar : Type :=
  | PyInt (z : Z)
  | PyFloat (x : pyfloat)
  | NpInt64 (z : Z).

Definition is_numpy (s : scalar) : bool :=
  match s with NpInt64 _ => true | _ => false end.

Definition to_float (s : scalar) : pyfloat :=
  match s with
  | PyInt z | NpInt64 z => Fin (inject_Z z)
  | PyFloat x => x
  end.

Definition Qsign_neg (q : Q) : bool := (Qnum q <? 0)%Z.
Definition Qis_zero (q : Q) : bool := (Qnum q =? 0)%Z.

Definition float_is_zero (x : pyfloat) : bool :=
  match x with Fin q => Qis_zero q | _ => false end.

(** IEEE division.  Signed zeros are not told apart: a finite non-zero
    value over zero takes the sign of the numerator. *)
Definition float_div (x y : pyfloat) : pyfloat :=
  match x, y with
  | NaN, _ | _, NaN => NaN
  | Inf _, Inf _ => NaN
  | Inf s, Fin q => Inf (xorb s (Qsign_neg q))
  | Fin _, Inf _ => Fin 0
  | Fin p, Fin q =>
      if Qis_zero q then (if Qis_zero p then NaN else Inf (Qsign_neg p))
      else Fin (Qred (p / q))
  end.

(** [a / b] in Python 3.  Between two Python scalars a zero divisor
    raises; as soon as one operand is a NumPy scalar the division is
    NumPy's, which returns an infinity or NaN (and only warns). *)
Definition truediv (a b : scalar) : result pyfloat :=
  if negb (is_numpy a) && negb (is_numpy b) && float_is_zero (to_float b)
  then Err ZeroDivisionError
  else Ok (float_div (to_float a) (to_float b)).

(** [a + b] on the integers that [sum] meets: the result is a NumPy
    scalar as soon as one operand is. *)
Definition py_add (a b : scalar) : scalar :=
  match a, b with
  | PyInt x, PyInt y => PyInt (x + y)
  | PyInt x, NpInt64 y | NpInt64 x, PyInt y | NpInt64 x, NpInt64 y =>
      NpInt64 (x + y)
  | _, _ => PyFloat (match to_float a, to_float b with
                     | Fin p, Fin q => Fin (Qred (p + q))
                     | NaN, _ | _, NaN => NaN
                     | Inf s, Inf t => if eqb s t then Inf s else NaN
                     | Inf s, _ | _, Inf s => Inf s
                     end)
  end.

(** The builtin [sum(iterable)]: starts from the Python integer [0]. *)
Definition py_sum (l : list scalar) : scalar := fold_left py_add l (PyInt 0).

(** The double nearest to a value of the model.  A finite value is a
    quotient of two integers; when both are below 2^53, as counts are,
    they are doubles themselves and the nearest double is their IEEE
    quotient. *)
Definition binary64_of_Z (z : Z) : spec_float :=
  binary_normalize 53 1024 z 0 false.

Definition binary64 (x : pyfloat) : spec_float :=
  match x with
  | Fin q => SFdiv 53 1024 (binary64_of_Z (Qnum q)) (binary64_of_Z (Zpos (Qden q)))
  | Inf s => S754_infinity s
  | NaN => S754_nan
  end.

(** ** The estimator *)

(** The number of elements of [data] equal to [k]. *)
Definition occurrences (k : string) (data : list string) : nat :=
  length (filter (k =.) data).

(** [np.unique(data, return_counts=True)]: the sorted distinct values, and
    next to each the number of times it occurs in [data]. *)
Definition np_unique_counts (data : list string) : list string * list Z :=
  let values := merge_sort String.le (remove_dups data) in
  (values, (λ k, Z.of_nat (occurrences k data)) <$> values).

(** [{k: v for (k, v) in pairs}]: a later pair overwrites an earlier one. *)
Definition dict_comprehension (pairs : list (string * Z)) : gmap string Z :=
  fold_left (λ d kv, <[kv.1 := kv.2]> d) pairs ∅.

(** [d.get(k, default)], the stored counts being NumPy integers. *)
Definition dict_get (d : gmap string Z) (k : string) (default : scalar) : scalar :=
  match d !! k with
  | Some v => NpInt64 v
  | None => default
  end.

(** [d.items()].  The order of the items is the map's, not the order of
    insertion; [fair] only sums over them. *)
Definition dict_items (d : gmap string Z) : list (string * Z) := map_to_list d.

Definition fair (data : list string) : result pyfloat :=
  let '(values, counts) := np_unique_counts data in
  let value_counts := dict_comprehension (zip values counts) in
  truediv (dict_get value_counts "H" (PyFloat (Fin 0)))
          (py_sum ((λ kv, NpInt64 kv.2) <$> dict_items value_counts)).

(** The estimate as the double the notebook compares with [==]. *)
Definition fair_binary64 (data : list string) : result spec_float :=
  match fair data with
  | Ok x => Ok (binary64 x)
  | Err e => Err e
  end.

(** The number of ["H"]s, and the exact quotient of two counts. *)
Definition H_count (data : list string) : Z := Z.of_nat (occurrences "H" data).

Definition ratio (num den : Z) : Q := Qred (inject_Z num / inject_Z den).

(** The sum of the counts of a list of items. *)
Definition total (pairs : list (string * Z)) : Z :=
  foldr (λ kv acc, kv.2 + acc) 0 pairs.

(** The item that [np.unique] yields for the value [k]. *)
Definition counted (data : list string) (k : string) : string * Z :=
  (k, Z.of_nat (occurrences k data)).

(** ** The interpreter state *)

(** A reference to a NumPy array: its index in the heap. *)
Definition loc := nat.

(** The state of a generator: the raw words it will produce, and how many
    of them have been consumed.  Any stream of words is allowed, which is
    more than NumPy's generator can produce: the statements below hold for
    every such state, and none asserts that a particular stream exists. *)
Record RandomState : Type := {
  words : nat → nat;
  cursor : nat;
}.

Definition advance (n : nat) (r : RandomState) : RandomState :=
  {| words := words r; cursor := (cursor r + n)%nat |}.

Section interpreter.
Context {A : Type}.

Record State : Type := {
  heap : list (list A);     (** the arrays allocated so far *)
  rng : RandomState;        (** the global generator behind [np.random] *)
  calls : list (list A);    (** what the estimator was called with, oldest first *)
}.

(** A computation reads and updates the state, and returns or raises.
    The state survives an exception, as it does in Python. *)
Definition M (X : Type) : Type := State → result X * State.

Definition ret {X} (x : X) : M X := λ st, (Ok x, st).

Definition raise {X} (e : exception) : M X := λ st, (Err e, st).

Definition bind {X Y} (m : M X) (k : X → M Y) : M Y :=
  λ st, match m st with
        | (Ok x, st') => k x st'
        | (Err e, st') => (Err e, st')
        end.

Definition lift {X} (r : result X) : M X := λ st, (r, st).

Definition read (a : loc) : M (list A) :=
  λ st, match heap st !! a with
        | Some xs => (Ok xs, st)
        | None => (Err ReferenceError, st)
        end.

Definition alloc (xs : list A) : M loc :=
  λ st, (Ok (length (heap st)),
         {| heap := heap st ++ [xs]; rng := rng st; calls := calls st |}).

Definition get_rng : M RandomState := λ st, (Ok (rng st), st).

Definition set_rng (r : RandomState) : M unit :=
  λ st, (Ok (), {| heap := heap st; rng := r; calls := calls st |}).

Definition log_call (xs : list A) : M unit :=
  λ st, (Ok (), {| heap := heap st; rng := rng st; calls := calls st ++ [xs] |}).
End interpreter.

Arguments State A : clear implicits.
Arguments M A X : clear implicits.

Notation "x <- m ;; k" := (bind m (λ x, k))
  (at level 100, m at next level, right associativity,
   format "'[v' x  <-  m  ;;  '/' k ']'").

(** ** NumPy *)

Section numpy.
Context {A : Type}.

(** [a.shape[0]] *)
Definition shape0 (a : loc) : M A nat :=
  xs <- read a ;; ret (length xs).

(** [np.random.seed(s)], for a generator algorithm [generator] that
    turns a seed into its stream of raw words. *)
Definition np_random_seed (generator : nat → nat → nat) (s : nat) : M A unit :=
  set_rng {| words := generator s; cursor := 0 |}.

(** [np.random.randint(0, high, size)]: [size] integers below [high].
    An empty request returns at once, before the bounds are looked at.
    Each integer is a raw word reduced below [high]; NumPy redraws some
    words to even out the odds, which changes nothing here, the words
    being arbitrary. *)
Definition np_random_randint (high size : nat) : M A (list nat) :=
  if decide (size = 0%nat) then ret []
  else if decide (high = 0%nat) then raise (ValueError "low >= high")
  else
    r <- get_rng ;;
    _ <- set_rng (advance size r) ;;
    ret ((λ k, words r (cursor r + k) `mod` high)%nat <$> seq 0 size).

(** [a[idx]] for an index array: a new array, with a bounds check. *)
Fixpoint getitem (xs : list A) (idx : list nat) : result (list A) :=
  match idx with
  | [] => Ok []
  | i :: idx' =>
      match xs !! i, getitem xs idx' with
      | Some x, Ok ys => Ok (x :: ys)
      | None, _ => Err IndexError
      | _, Err e => Err e
      end
  end.

(** [np.random.choice(a, size=size)] on a one-dimensional array, with
    replacement and uniform weights: [a[randint(0, pop_size, size)]].
    NumPy refuses an empty population only when samples are asked for
    ([pop_size == 0 and np.prod(size) != 0]); releases older than this
    rule refused every empty population. *)
Definition np_random_choice (a : loc) (size : nat) : M A loc :=
  xs <- read a ;;
  let pop_size := length xs in
  if decide (pop_size = 0%nat ∧ size ≠ 0%nat)
  then raise (ValueError "'a' cannot be empty unless no samples are taken")
  else
    idx <- np_random_randint pop_size size ;;
    ys <- lift (getitem xs idx) ;;
    alloc ys.

(** [np.empty(n, dtype=float)]: [n] cells holding whatever was in memory,
    here [junk]. *)
Definition np_empty (junk : nat → pyfloat) (n : Z) : M A (list pyfloat) :=
  if decide (n < 0) then raise (ValueError "negative dimensions are not allowed")
  else ret (junk <$> seq 0 (Z.to_nat n)).

(** [result[i] = v] *)
Definition setitem (result : list pyfloat) (i : nat) (v : pyfloat)
  : M A (list pyfloat) :=
  if decide (i < length result)%nat then ret (<[i := v]> result)
  else raise IndexError.

(** [range(n)] *)
Definition range (n : Z) : list nat := seq 0 (Z.to_nat n).

(** [for i in indices: acc = body(i, acc)] *)
Fixpoint for_each {X} (indices : list nat) (body : nat → X → M A X) (acc : X)
  : M A X :=
  match indices with
  | [] => ret acc
  | i :: rest => acc' <- body i acc ;; for_each rest body acc'
  end.
End numpy.

(** ** The resampler and the harness *)

Section bootstrap.
Context {A : Type}.

Definition bootstrap_data (data : loc) : M A loc :=
  n <- shape0 data ;;
  np_random_choice data n.

(** Calling the estimator on an array: it sees the array's contents. *)
Definition call (f : list A → result pyfloat) (a : loc) : M A pyfloat :=
  xs <- read a ;;
  _ <- log_call xs ;;
  lift (f xs).

Definition bootstrap_function (junk : nat → pyfloat)
    (data : loc) (f : list A → result pyfloat) (n : Z) : M A (list pyfloat) :=
  result <- np_empty junk n ;;
  for_each (range n)
    (λ i result,
       data2 <- bootstrap_data data ;;
       v <- call f data2 ;;
       setitem result i v)
    result.
End bootstrap.

(** ** What a run produces *)

Section runs.
Context {A : Type}.
Implicit Types (xs ys : list A) (st : State A) (r : RandomState).

(** The indices a request for [size] integers below [high] returns. *)
Definition draws r (high size : nat) : list nat :=
  (λ k, words r (cursor r + k) `mod` high)%nat <$> seq 0 size.

(** The contents of one resample of [xs] drawn from generator state [r]. *)
Definition resample xs r : list A :=
  omap (xs !!.) (draws r (length xs) (length xs)).

(** The contents of [k] resamples drawn one after the other. *)
Fixpoint resamples xs r (k : nat) : list (list A) :=
  match k with
  | O => []
  | S k' => resample xs r :: resamples xs (advance (length xs) r) k'
  end.

(** The array a computation returns, read back from the final heap. *)
Definition returned_array (m : M A loc) st : result (list A) :=
  match m st with
  | (Ok a, st') =>
      match heap st' !! a with
      | Some ys => Ok ys
      | None => Err ReferenceError
      end
  | (Err e, _) => Err e
  end.

(** What one call of [bootstrap_data] does to the state. *)
Definition after_resample xs st : State A :=
  {| heap := heap st ++ [resample xs (rng st)];
     rng := advance (length xs) (rng st);
     calls := calls st |}.

(** The state after one turn of the loop: one more array, one more call. *)
Definition after_iteration xs st : State A :=
  {| heap := heap st ++ [resample xs (rng st)];
     rng := advance (length xs) (rng st);
     calls := calls st ++ [resample xs (rng st)] |}.

(** The state after [k] turns. *)
Definition after_loop xs st (k : nat) : State A :=
  {| heap := heap st ++ resamples xs (rng st) k;
     rng := advance (k * length xs) (rng st);
     calls := calls st ++ resamples xs (rng st) k |}.

(** The state [st] once the generator has produced [k] more words. *)
Definition skip_words (k : nat) st : State A :=
  {| heap := heap st; rng := advance k (rng st); calls := calls st |}.

End runs.

(** ** Concrete inputs *)

Definition coin_tosses : list string := ["H"; "T"; "T"].

(** A state holding one array, with a generator whose [k]-th word is
    [k / 3]. *)
Definition one_array (xs : list string) : State string :=
  {| heap := [xs];
     rng := {| words := λ k, (k `div` 3)%nat; cursor := 0 |};
     calls := [] |}.

Definition no_junk : nat → pyfloat := λ _, NaN.

(** An estimator that counts the ["H"]s. *)
Definition count_H (ys : list string) : pyfloat := Fin (inject_Z (H_count ys)).

(** An estimator that ignores its argument. *)
Definition always_one (ys : list string) : result pyfloat := Ok (Fin 1).

(** A generator algorithm: the [k]-th word for seed [s]. *)
Definition toy_generator (s k : nat) : nat := (s + k * k)%nat.

(** ** The rest of the notebook *)

(** *** Float arithmetic and the array statistics *)

Definition float_add (x y : pyfloat) : pyfloat :=
  match x, y with
  | NaN, _ | _, NaN => NaN
  | Inf s, Inf t => if eqb s t then Inf s else NaN
  | Inf s, Fin _ | Fin _, Inf s => Inf s
  | Fin p, Fin q => Fin (Qred (p + q))
  end.

Definition float_neg (x : pyfloat) : pyfloat :=
  match x with
  | Fin q => Fin (Qred (- q))
  | Inf s => Inf (negb s)
  | NaN => NaN
  end.

(** [x - y] *)
Definition float_sub (x y : pyfloat) : pyfloat := float_add x (float_neg y).

Definition float_mul (x y : pyfloat) : pyfloat :=
  match x, y with
  | NaN, _ | _, NaN => NaN
  | Inf s, Inf t => Inf (xorb s t)
  | Inf s, Fin q | Fin q, Inf s =>
      if Qis_zero q then NaN else Inf (xorb s (Qsign_neg q))
  | Fin p, Fin q => Fin (Qred (p * q))
  end.

(** [a.sum()] of a float array *)
Definition np_sum (a : list pyfloat) : pyfloat := fold_left float_add a (Fin 0).

(** [a.mean()]: the sum over the number of elements.  On an empty array
    this is [0.0 / 0] in NumPy's arithmetic: NaN (and a warning). *)
Definition np_mean (a : list pyfloat) : pyfloat :=
  float_div (np_sum a) (Fin (inject_Z (Z.of_nat (length a)))).

(** [a.var()]: the mean of the squared deviations from the mean. *)
Definition np_var (a : list pyfloat) : pyfloat :=
  let arrmean := np_mean a in
  np_mean ((λ x, float_mul (float_sub x arrmean) (float_sub x arrmean)) <$> a).

(** Sums of at most [count] integers between [lo] and [hi] are integers
    of magnitude at most 2^53: each of them is a double, and adding them
    as doubles rounds nothing. *)
Definition exact_sums (count lo hi : Z) : Prop :=
  count * Z.max (Z.abs lo) (Z.abs hi) ≤ 2 ^ 53.

(** [lambda data: data.mean()] on an integer array.  NumPy converts the
    elements to doubles and sums them as doubles.  The model keeps the
    elements and their sum exact: this is what the code computes as long
    as no sum is rounded ([exact_sums]), which the statements about
    [array_mean] assume; beyond that the code rounds and the model does
    not follow it. *)
Definition array_mean (data : list Z) : result pyfloat :=
  Ok (np_mean ((λ z, Fin (inject_Z z)) <$> data)).

(** [lambda data: 1.0], for any constant. *)
Definition constant_estimator {A} (c : pyfloat) (data : list A) : result pyfloat :=
  Ok c.

(** *** The cells that use the three functions *)

(** The cell
[[
    for i in range(20):
        re_data = bootstrap_data(data)
        print(fair(re_data))
]]
    with the printed values collected in order.  [fair] is called
    directly here, not through the harness. *)
Definition print_resampled_fairness (data : loc) : M string (list pyfloat) :=
  for_each (range 20)
    (λ i printed,
       re_data <- bootstrap_data data ;;
       xs <- read re_data ;;
       v <- lift (fair xs) ;;
       ret (printed ++ [v]))
    [].

(** The cells
[[
    fairs = bootstrap_function(data, fair, n)
    bias = fairs.mean() - fair(data)
    var = fairs.var()
    bias, var
]]
    where the notebook has [n = 200]. *)
Definition bias_and_variance (junk : nat → pyfloat) (data : loc) (n : Z)
  : M string (pyfloat * pyfloat) :=
  fairs <- bootstrap_function junk data fair n ;;
  xs <- read data ;;
  point <- lift (fair xs) ;;
  let bias := float_sub (np_mean fairs) point in
  let var := np_var fairs in
  ret (bias, var).

(** *** What a run of the harness produces, for any estimator *)

Section outcomes.
Context {A : Type}.

(** The values [f] returns on successive arrays, up to its first
    exception. *)
Fixpoint estimates (f : list A → result pyfloat) (samples : list (list A))
  : list pyfloat * option exception :=
  match samples with
  | [] => ([], None)
  | ys :: rest =>
      match f ys with
      | Ok v => let '(vs, e) := estimates f rest in (v :: vs, e)
      | Err e => ([], Some e)
      end
  end.

End outcomes.

(** The state after [k] calls of [bootstrap_data] on an array holding
    [xs]. *)
Definition after_resamples {A} (xs : list A) (st : State A) (k : nat) : State A :=
  {| heap := heap st ++ resamples xs (rng st) k;
     rng := advance (k * length xs) (rng st);
     calls := calls st |}.

(** A finite value between two bounds. *)
Definition finite_between (lo hi : Q) (v : pyfloat) : Prop :=
  ∃ q : Q, v = Fin q ∧ (lo <= q <= hi)%Q.

(** The array of the notebook's second test. *)
Definition test_data : list Z := [0; 0; 0; 0; 1; 1; 1; 1].

Definition one_int_array (xs : list Z) : State Z :=
  {| heap := [xs];
     rng := {| words := λ k, (k * k + 3)%nat; cursor := 0 |};
     calls := [] |}.

(** An estimator that raises on arrays that start with ["T"]. *)
Definition picky (ys : list string) : result pyfloat :=
  match ys with
  | "T" :: _ => Err (ValueError "tails first")
  | _ => Ok (Fin 1)
  end.

(** ** Facts about the estimator *)

Section estimator_facts.
Implicit Types (data values : list string) (pairs : list (string * Z)).

Lemma total_Permutation pairs pairs' :
  pairs ≡ₚ pairs' → total pairs = total pairs'.
Proof.
  induction 1 as [|[] ? ? ? IH|[] []|]; simpl in *; lia.
Qed.

Lemma py_sum_from_np pairs a :
  fold_left py_add ((λ kv, NpInt64 kv.2) <$> pairs) (NpInt64 a)
  = NpInt64 (a + total pairs).
Proof.
  revert a. induction pairs as [|[k v] pairs IH]; intros a; simpl.
  - f_equal. lia.
  - rewrite IH. f_equal. lia.
Qed.

Lemma py_sum_counts pairs :
  py_sum ((λ kv, NpInt64 kv.2) <$> pairs)
  = match pairs with [] => PyInt 0 | _ => NpInt64 (total pairs) end.
Proof.
  destruct pairs as [|[k v] pairs]; [done|].
  unfold py_sum. simpl. by rewrite py_sum_from_np.
Qed.

Lemma dict_comprehension_list_to_map pairs :
  dict_comprehension pairs = list_to_map (reverse pairs).
Proof.
  unfold dict_comprehension.
  assert (∀ d : gmap string Z,
    fold_left (λ d kv, <[kv.1:=kv.2]> d) pairs d
    = foldr (λ p, <[p.1:=p.2]>) d (reverse pairs)) as Hgen.
  { induction pairs as [|kv pairs IH]; intros d; [done|].
    simpl. rewrite IH, reverse_cons, foldr_app. done. }
  apply Hgen.
Qed.

Lemma np_unique_counts_zip data :
  let '(values, counts) := np_unique_counts data in
  zip values counts = counted data <$> values
  ∧ NoDup values ∧ ∀ k, k ∈ values ↔ k ∈ data.
Proof.
  unfold np_unique_counts.
  set (values := merge_sort String.le (remove_dups data)).
  assert (values ≡ₚ remove_dups data) as Hperm
    by apply merge_sort_Permutation.
  split; [|split].
  - generalize values. intros l. induction l as [|k l IH]; [done|].
    simpl in *. by f_equal.
  - rewrite Hperm. apply NoDup_remove_dups.
  - intros k. rewrite Hperm. apply elem_of_remove_dups.
Qed.

Lemma counted_keys data values : (counted data <$> values).*1 = values.
Proof. induction values as [|k l IH]; [done|]. simpl in *. by f_equal. Qed.

Lemma dict_items_comprehension pairs :
  NoDup pairs.*1 → dict_items (dict_comprehension pairs) ≡ₚ pairs.
Proof.
  intros Hnd. unfold dict_items.
  rewrite dict_comprehension_list_to_map, map_to_list_to_map.
  - apply reverse_Permutation.
  - by rewrite fmap_reverse, reverse_Permutation.
Qed.

Lemma dict_comprehension_lookup data values k :
  NoDup values →
  dict_comprehension (counted data <$> values) !! k
  = if decide (k ∈ values) then Some (Z.of_nat (occurrences k data)) else None.
Proof.
  intros Hnd. rewrite dict_comprehension_list_to_map.
  assert (NoDup (reverse (counted data <$> values)).*1) as Hnd'.
  { by rewrite fmap_reverse, reverse_Permutation, counted_keys. }
  case_decide as Hk.
  - apply elem_of_list_to_map; [done|].
    rewrite elem_of_reverse. apply (list_elem_of_fmap_2 (counted data)). done.
  - apply not_elem_of_list_to_map.
    by rewrite fmap_reverse, elem_of_reverse, counted_keys.
Qed.

(** Each element of [data] is counted under exactly one distinct value. *)
Lemma occurrences_cons k x data :
  occurrences k (x :: data)
  = ((if decide (k = x) then 1 else 0) + occurrences k data)%nat.
Proof.
  unfold occurrences. rewrite filter_cons. by case_decide.
Qed.

Lemma total_cons kv pairs : total (kv :: pairs) = kv.2 + total pairs.
Proof. reflexivity. Qed.

Lemma total_indicator x values :
  NoDup values →
  total ((λ k, (k, Z.of_nat (if decide (k = x) then 1 else 0))) <$> values)
  = if decide (x ∈ values) then 1 else 0.
Proof.
  induction 1 as [|k l Hk Hnd IH].
  - done.
  - rewrite fmap_cons, total_cons, IH. cbn [snd].
    destruct (decide (k = x)) as [->|Hne].
    + rewrite (decide_False (P := x ∈ l)) by done.
      rewrite decide_True by apply list_elem_of_here. done.
    + destruct (decide (x ∈ l)) as [Hx|Hx].
      * rewrite decide_True by by apply list_elem_of_further. done.
      * rewrite decide_False; [done|].
        intros [?|?]%elem_of_cons; congruence.
Qed.

Lemma total_counted data values :
  NoDup values → (∀ k, k ∈ data → k ∈ values) →
  total (counted data <$> values) = Z.of_nat (length data).
Proof.
  intros Hnd. induction data as [|x data IH]; intros Hin.
  - clear. induction values as [|k l IHl]; [done|].
    rewrite fmap_cons, total_cons, IHl. done.
  - transitivity (total ((λ k, (k, Z.of_nat (if decide (k = x) then 1 else 0)))
                          <$> values)
                  + total (counted data <$> values)).
    + clear. induction values as [|k l IHl]; [done|].
      rewrite !fmap_cons, !total_cons, IHl. unfold counted. cbn [snd].
      rewrite occurrences_cons. lia.
    + rewrite total_indicator by done.
      rewrite IH by (intros k Hk; by apply Hin, list_elem_of_further).
      rewrite decide_True by apply Hin, list_elem_of_here.
      simpl length. lia.
Qed.

Lemma occurrences_absent k data : k ∉ data → occurrences k data = 0%nat.
Proof.
  induction data as [|x data IH]; intros Hk; [done|].
  rewrite occurrences_cons, IH.
  - rewrite decide_False; [done|]. intros ->. apply Hk, list_elem_of_here.
  - intros ?. by apply Hk, list_elem_of_further.
Qed.

Lemma occurrences_le k data : (occurrences k data ≤ length data)%nat.
Proof. apply length_filter. Qed.

Lemma occurrences_Permutation k data data' :
  data ≡ₚ data' → occurrences k data = occurrences k data'.
Proof. intros Hp. unfold occurrences. by rewrite Hp. Qed.

(** The two operands of the division in [fair]. *)
Lemma fair_operands data :
  fair data
  = truediv (if decide ("H" ∈ data) then NpInt64 (H_count data)
             else PyFloat (Fin 0))
            (match data with
             | [] => PyInt 0
             | _ => NpInt64 (Z.of_nat (length data))
             end).
Proof.
  unfold fair. pose proof (np_unique_counts_zip data) as Hu.
  destruct (np_unique_counts data) as [values counts].
  destruct Hu as (-> & Hnd & Hin).
  assert (NoDup (counted data <$> values).*1) as Hnd'
    by by rewrite counted_keys.
  f_equal.
  - unfold dict_get. rewrite dict_comprehension_lookup by done.
    destruct (decide ("H" ∈ values)) as [Hv|Hv].
    + rewrite decide_True by by apply Hin. done.
    + rewrite decide_False; [done|]. intros ?. by apply Hv, Hin.
  - rewrite py_sum_counts.
    pose proof (dict_items_comprehension _ Hnd') as Hperm.
    rewrite (total_Permutation _ _ Hperm).
    rewrite total_counted by (done || intros k Hk; by apply Hin).
    destruct data as [|x data].
    + assert (values = []) as ->.
      { destruct values as [|k l]; [done|].
        exfalso. eapply not_elem_of_nil, Hin, list_elem_of_here. }
      done.
    + destruct (dict_items _) as [|kv items] eqn:Hitems; [|done].
      apply Permutation_nil_l in Hperm. symmetry in Hperm.
      apply fmap_nil_inv in Hperm. subst values.
      exfalso. eapply not_elem_of_nil, Hin, list_elem_of_here.
Qed.

Lemma truediv_numpy a n :
  truediv a (NpInt64 n) = Ok (float_div (to_float a) (Fin (inject_Z n))).
Proof. unfold truediv. simpl. by rewrite andb_false_r. Qed.

Lemma float_div_finite p n :
  n ≠ 0 → float_div (Fin p) (Fin (inject_Z n)) = Fin (Qred (p / inject_Z n)).
Proof.
  intros Hn. unfold float_div, Qis_zero. simpl.
  by rewrite (proj2 (Z.eqb_neq n 0) Hn).
Qed.

Lemma fair_nonempty data :
  data ≠ [] →
  fair data = Ok (Fin (ratio (H_count data) (Z.of_nat (length data)))).
Proof.
  intros Hne. rewrite fair_operands.
  destruct data as [|x data]; [done|]. clear Hne.
  rewrite truediv_numpy.
  assert (Z.of_nat (length (x :: data)) ≠ 0) as Hn by (simpl; lia).
  case_decide as HH.
  - simpl to_float. by rewrite float_div_finite.
  - simpl to_float. rewrite float_div_finite by done.
    unfold H_count. rewrite occurrences_absent by done. done.
Qed.

Lemma fair_empty : fair [] = Err ZeroDivisionError.
Proof. by rewrite fair_operands. Qed.

Lemma ratio_spec num den : (ratio num den == inject_Z num / inject_Z den)%Q.
Proof. apply Qred_correct. Qed.

Lemma ratio_bounds num den :
  0 ≤ num ≤ den → 0 < den → (0 <= ratio num den <= 1)%Q.
Proof.
  intros [Hlo Hhi] Hpos. rewrite ratio_spec.
  assert (0 < inject_Z den)%Q as Hd by (unfold Qlt; simpl; lia).
  split.
  - apply Qle_shift_div_l; [done|]. rewrite Qmult_0_l.
    unfold Qle. simpl. lia.
  - apply Qle_shift_div_r; [done|]. rewrite Qmult_1_l.
    unfold Qle. simpl. lia.
Qed.

End estimator_facts.

(** ** Running the resampler *)

Section resampling_facts.
Context {A : Type}.
Implicit Types (xs ys : list A) (st : State A) (r : RandomState).

Lemma advance_0 r : advance 0 r = r.
Proof. destruct r as [w c]. unfold advance. simpl. f_equal. lia. Qed.

Lemma advance_advance a b r : advance a (advance b r) = advance (b + a) r.
Proof. unfold advance. simpl. f_equal. lia. Qed.

Lemma bind_Ok {X Y} (m : M A X) (k : X → M A Y) st x st' :
  m st = (Ok x, st') → bind m k st = k x st'.
Proof. unfold bind. by intros ->. Qed.

Lemma bind_Err {X Y} (m : M A X) (k : X → M A Y) st e st' :
  m st = (Err e, st') → bind m k st = (Err e, st').
Proof. unfold bind. by intros ->. Qed.

Lemma read_Some a xs st : heap st !! a = Some xs → read a st = (Ok xs, st).
Proof. unfold read. by intros ->. Qed.

Lemma draws_length r high size : length (draws r high size) = size.
Proof. unfold draws. by rewrite length_fmap, length_seq. Qed.

Lemma draws_below r high size :
  high ≠ 0%nat → Forall (λ i, (i < high)%nat) (draws r high size).
Proof.
  intros Hh. unfold draws. apply Forall_fmap, Forall_forall.
  intros k _. simpl. by apply Nat.mod_upper_bound.
Qed.

Lemma getitem_in_range xs idx :
  Forall (λ i, (i < length xs)%nat) idx → getitem xs idx = Ok (omap (xs !!.) idx).
Proof.
  induction 1 as [|i idx Hi _ IH]; [done|].
  destruct (lookup_lt_is_Some_2 xs i Hi) as [x Hx].
  simpl. rewrite Hx, IH. done.
Qed.

Lemma omap_lookup_length xs idx :
  Forall (λ i, (i < length xs)%nat) idx →
  length (omap (xs !!.) idx) = length idx.
Proof.
  induction 1 as [|i idx Hi _ IH]; [done|].
  destruct (lookup_lt_is_Some_2 xs i Hi) as [x Hx].
  simpl. rewrite Hx. simpl. f_equal. apply IH.
Qed.

Lemma resample_nil r : resample (@nil A) r = [].
Proof. done. Qed.

Lemma resample_length xs r : length (resample xs r) = length xs.
Proof.
  destruct xs as [|x xs]; [done|]. unfold resample.
  rewrite omap_lookup_length; [by rewrite draws_length|].
  by apply draws_below.
Qed.

Lemma resample_elem_of xs r y : y ∈ resample xs r → y ∈ xs.
Proof.
  unfold resample. rewrite list_elem_of_omap.
  intros (i & _ & Hi). by eapply list_elem_of_lookup_2.
Qed.

Lemma resamples_length xs r k : length (resamples xs r k) = k.
Proof. revert r. induction k as [|k IH]; intros r; simpl; [done|]. by rewrite IH. Qed.

Lemma resamples_lookup xs r k i :
  (i < k)%nat →
  resamples xs r k !! i = Some (resample xs (advance (i * length xs) r)).
Proof.
  revert r i. induction k as [|k IH]; intros r i Hi; [lia|].
  destruct i as [|i]; simpl.
  - by rewrite advance_0.
  - rewrite IH by lia. by rewrite advance_advance.
Qed.

Lemma draws_in_range r n : Forall (λ i, (i < n)%nat) (draws r n n).
Proof. destruct n; [constructor|]. by apply draws_below. Qed.

Lemma np_random_randint_run high size st :
  high ≠ 0%nat ∨ size = 0%nat →
  np_random_randint high size st
  = (Ok (draws (rng st) high size),
     {| heap := heap st; rng := advance size (rng st); calls := calls st |}).
Proof.
  intros Hok. unfold np_random_randint.
  destruct (decide (size = 0%nat)) as [->|Hsize].
  - rewrite advance_0. by destruct st.
  - rewrite decide_False by (by destruct Hok). done.
Qed.

Lemma bootstrap_data_run data xs st :
  heap st !! data = Some xs →
  bootstrap_data data st = (Ok (length (heap st)), after_resample xs st).
Proof.
  intros Hxs. unfold bootstrap_data, shape0.
  rewrite (bind_Ok _ _ st (length xs) st)
    by (by rewrite (bind_Ok _ _ st xs st) by by apply read_Some).
  unfold np_random_choice. rewrite (bind_Ok _ _ st xs st) by by apply read_Some.
  rewrite decide_False by (by intros [? ?]).
  erewrite bind_Ok by (apply np_random_randint_run; lia).
  unfold lift, bind. rewrite getitem_in_range by apply draws_in_range.
  done.
Qed.
End resampling_facts.

(** ** Running the harness *)

Section harness_facts.
Context {A : Type}.
Variables (data : loc) (xs : list A) (f : list A → result pyfloat).
Implicit Types (st : State A) (acc : list pyfloat).

Local Abbreviation body :=
  (λ (i : nat) (result : list pyfloat),
     data2 <- bootstrap_data data ;;
     v <- call f data2 ;;
     setitem result i v).

Lemma after_loop_0 st : after_loop xs st 0 = st.
Proof.
  destruct st as [h r c]. unfold after_loop. simpl.
  by rewrite !app_nil_r, advance_0.
Qed.

Lemma after_loop_S st k :
  after_loop xs (after_iteration xs st) k = after_loop xs st (S k).
Proof.
  unfold after_loop, after_iteration. simpl.
  rewrite <- !app_assoc, advance_advance. done.
Qed.

Lemma call_run a ys st :
  heap st !! a = Some ys →
  call f a st
  = (f ys, {| heap := heap st; rng := rng st; calls := calls st ++ [ys] |}).
Proof.
  intros Ha. unfold call. rewrite (bind_Ok _ _ st ys st) by by apply read_Some.
  done.
Qed.

Lemma iteration_run i acc st :
  heap st !! data = Some xs → (i < length acc)%nat →
  body i acc st
  = (match f (resample xs (rng st)) with
     | Ok v => Ok (<[i := v]> acc)
     | Err e => Err e
     end, after_iteration xs st).
Proof.
  intros Hxs Hi. cbv beta.
  rewrite (bind_Ok _ _ _ _ _ (bootstrap_data_run data xs st Hxs)).
  unfold bind at 1. rewrite (call_run _ (resample xs (rng st))).
  - destruct (f _) as [v|e]; [|done].
    unfold setitem. rewrite decide_True by done. done.
  - apply list_lookup_middle. done.
Qed.

Section all_calls_return.
Variable g : list A → pyfloat.
Hypothesis f_returns :
  ∀ ys, length ys = length xs → (∀ y, y ∈ ys → y ∈ xs) → f ys = Ok (g ys).

Lemma loop_run k : ∀ i acc st,
  heap st !! data = Some xs → length acc = (i + k)%nat →
  for_each (seq i k) body acc st
  = (Ok (take i acc ++ (g <$> resamples xs (rng st) k)), after_loop xs st k).
Proof.
  induction k as [|k IH]; intros i acc st Hxs Hlen.
  - simpl. rewrite after_loop_0, app_nil_r, take_ge by lia. done.
  - cbn [seq for_each].
    erewrite bind_Ok; last first.
    { rewrite iteration_run by (done || lia).
      rewrite f_returns by
        (apply resample_length || apply resample_elem_of).
      done. }
    rewrite IH; last first.
    { rewrite length_insert. lia. }
    { apply lookup_app_l_Some. done. }
    rewrite after_loop_S. f_equal. f_equal.
    rewrite (take_S_r _ _ (g (resample xs (rng st))))
      by (apply list_lookup_insert_eq; lia).
    rewrite take_insert_ge by lia.
    rewrite <- app_assoc. done.
Qed.

Lemma bootstrap_function_run junk n st :
  0 ≤ n → heap st !! data = Some xs →
  bootstrap_function junk data f n st
  = (Ok (g <$> resamples xs (rng st) (Z.to_nat n)), after_loop xs st (Z.to_nat n)).
Proof.
  intros Hn Hxs. unfold bootstrap_function, np_empty.
  rewrite decide_False by lia.
  erewrite bind_Ok by done.
  unfold range. rewrite loop_run; [done..|].
  by rewrite length_fmap, length_seq.
Qed.
End all_calls_return.

(** When the estimator raises on the first resample, the exception
    leaves the loop at once: one array was drawn, one call was made,
    and no value was stored. *)
Lemma bootstrap_function_first_raise junk n st e :
  0 < n → heap st !! data = Some xs →
  f (resample xs (rng st)) = Err e →
  bootstrap_function junk data f n st = (Err e, after_iteration xs st).
Proof.
  intros Hn Hxs Hf. unfold bootstrap_function, np_empty.
  rewrite decide_False by lia.
  erewrite bind_Ok by done.
  unfold range. destruct (Z.to_nat n) as [|k] eqn:Hk; [lia|].
  cbn [seq for_each].
  erewrite bind_Err; [done|].
  rewrite iteration_run, Hf; [done..|].
  rewrite length_fmap. simpl. lia.
Qed.
End harness_facts.

(** ** Running the harness with any estimator *)

Section harness_outcomes.
Context {A : Type}.
Variables (data : loc) (xs : list A) (f : list A → result pyfloat).
Implicit Types (st : State A) (acc : list pyfloat).

Local Abbreviation body :=
  (λ (i : nat) (result : list pyfloat),
     data2 <- bootstrap_data data ;;
     v <- call f data2 ;;
     setitem result i v).

Lemma after_loop_1 st : after_loop xs st 1 = after_iteration xs st.
Proof.
  unfold after_loop, after_iteration. simpl. by rewrite Nat.add_0_r.
Qed.

(** The loop, for an estimator that may raise. *)
Lemma loop_outcome k : ∀ i acc st,
  heap st !! data = Some xs → length acc = (i + k)%nat →
  for_each (seq i k) body acc st
  = match estimates f (resamples xs (rng st) k) with
    | (vs, None) => (Ok (take i acc ++ vs), after_loop xs st k)
    | (vs, Some e) => (Err e, after_loop xs st (S (length vs)))
    end.
Proof.
  induction k as [|k IH]; intros i acc st Hxs Hlen.
  - simpl. rewrite after_loop_0, app_nil_r, take_ge by lia. done.
  - cbn [seq for_each resamples estimates].
    pose proof (iteration_run data xs f i acc st Hxs) as Hit.
    destruct (f (resample xs (rng st))) as [v|e] eqn:Hf.
    + erewrite bind_Ok by (apply Hit; lia).
      rewrite IH; last first.
      { rewrite length_insert. lia. }
      { apply lookup_app_l_Some. done. }
      cbn [rng after_iteration].
      destruct (estimates f _) as [vs [e|]].
      * by rewrite after_loop_S.
      * rewrite after_loop_S. f_equal. f_equal.
        rewrite (take_S_r _ _ v) by (apply list_lookup_insert_eq; lia).
        rewrite take_insert_ge by lia. by rewrite <- app_assoc.
    + erewrite bind_Err by (apply Hit; lia).
      by rewrite after_loop_1.
Qed.

(** The whole function, for any estimator and any count. *)
Lemma bootstrap_function_outcome junk (n : Z) st :
  heap st !! data = Some xs →
  bootstrap_function junk data f n st
  = if decide (n < 0)
    then (Err (ValueError "negative dimensions are not allowed"), st)
    else match estimates f (resamples xs (rng st) (Z.to_nat n)) with
         | (vs, None) => (Ok vs, after_loop xs st (Z.to_nat n))
         | (vs, Some e) => (Err e, after_loop xs st (S (length vs)))
         end.
Proof.
  intros Hxs. unfold bootstrap_function, np_empty.
  destruct (decide (n < 0)) as [Hn|Hn]; [done|].
  erewrite bind_Ok by done.
  unfold range. rewrite loop_outcome; [done..|].
  by rewrite length_fmap, length_seq.
Qed.
End harness_outcomes.

Section estimates_facts.
Context {A : Type}.
Implicit Types (f : list A → result pyfloat) (samples : list (list A)).

Lemma estimates_length f samples :
  (length (estimates f samples).1 ≤ length samples)%nat.
Proof.
  induction samples as [|ys rest IH]; simpl; [done|].
  destruct (f ys); simpl; [|lia].
  destruct (estimates f rest). simpl in *. lia.
Qed.

Lemma estimates_raise_length f samples vs e :
  estimates f samples = (vs, Some e) → (length vs < length samples)%nat.
Proof.
  revert vs. induction samples as [|ys rest IH]; intros vs; simpl; [done|].
  destruct (f ys); [|intros [= <- _]; simpl; lia].
  destruct (estimates f rest) as [vs' oe]. intros [= <- ->].
  specialize (IH vs' eq_refl). simpl. lia.
Qed.

Lemma estimates_all_return f (g : list A → pyfloat) samples :
  Forall (λ ys, f ys = Ok (g ys)) samples →
  estimates f samples = (g <$> samples, None).
Proof.
  induction 1 as [|ys rest Hys _ IH]; [done|].
  simpl. by rewrite Hys, IH.
Qed.

Lemma estimates_when_returning f samples :
  Forall (λ ys, ∃ v, f ys = Ok v) samples →
  ∃ vs, estimates f samples = (vs, None)
        ∧ Forall2 (λ ys v, f ys = Ok v) samples vs.
Proof.
  induction 1 as [|ys rest [v Hv] _ (vs & Hvs & Hall)].
  - exists []. split; [done|constructor].
  - exists (v :: vs). simpl. rewrite Hv, Hvs. split; [done|].
    by constructor.
Qed.

Lemma estimates_first_raise f samples (k : nat) ys e :
  samples !! k = Some ys →
  (∀ j zs, (j < k)%nat → samples !! j = Some zs → ∃ v, f zs = Ok v) →
  f ys = Err e →
  ∃ vs, estimates f samples = (vs, Some e) ∧ length vs = k.
Proof.
  revert k. induction samples as [|zs rest IH]; intros k Hk Hbefore Hf; [done|].
  destruct k as [|k]; simpl in *.
  - injection Hk as ->. rewrite Hf. by exists [].
  - destruct (Hbefore 0%nat zs) as [v Hv]; [lia|done|].
    rewrite Hv. destruct (IH k Hk) as (vs & Hvs & Hlen); [|done|].
    { intros j ws Hj Hws. apply (Hbefore (S j) ws); [lia|done]. }
    rewrite Hvs. exists (v :: vs). split; [done|]. simpl. by f_equal.
Qed.
End estimates_facts.

(** ** The specification, claim by claim *)

(** *** The point estimator *)

(** C1.  On a non-empty sequence [fair] returns the fraction of elements
    equal to ["H"]: the number of such elements over the length, a value
    between 0 and 1.  The four assertions of the notebook hold: the
    estimate is 0.5, 0.0, 1.0 and 0.75 on HHTT, TTTT, HHHH and HHHT. *)
Theorem fair_is_fraction_of_H (data : list string) :
  data ≠ [] →
  (∃ q : Q,
      fair data = Ok (Fin q)
      ∧ (q == inject_Z (H_count data) / inject_Z (Z.of_nat (length data)))%Q
      ∧ (0 <= q <= 1)%Q)
  ∧ fair ["H"; "H"; "T"; "T"] = Ok (Fin (1 # 2))
  ∧ fair ["T"; "T"; "T"; "T"] = Ok (Fin 0)
  ∧ fair ["H"; "H"; "H"; "H"] = Ok (Fin 1)
  ∧ fair ["H"; "H"; "H"; "T"] = Ok (Fin (3 # 4)).
Proof.
  intros Hne. split.
  - exists (ratio (H_count data) (Z.of_nat (length data))).
    split; [by apply fair_nonempty|]. split; [apply ratio_spec|].
    apply ratio_bounds.
    + unfold H_count. pose proof (occurrences_le "H" data) as Hle. lia.
    + destruct data; [done|]. simpl. lia.
  - repeat split; by rewrite fair_nonempty.
Qed.

Lemma fair_is_fraction_of_H_witness :
  ["H"; "T"; "T"] ≠ []
  ∧ ((∃ q : Q,
         fair ["H"; "T"; "T"] = Ok (Fin q)
         ∧ (q == inject_Z (H_count ["H"; "T"; "T"])
                 / inject_Z (Z.of_nat (length ["H"; "T"; "T"])))%Q
         ∧ (0 <= q <= 1)%Q)
     ∧ fair ["H"; "H"; "T"; "T"] = Ok (Fin (1 # 2))
     ∧ fair ["T"; "T"; "T"; "T"] = Ok (Fin 0)
     ∧ fair ["H"; "H"; "H"; "H"] = Ok (Fin 1)
     ∧ fair ["H"; "H"; "H"; "T"] = Ok (Fin (3 # 4))).
Proof.
  split; [discriminate|]. apply (fair_is_fraction_of_H ["H"; "T"; "T"]).
  discriminate.
Defined.

(** The four assertions of the notebook, on doubles: 2^52 * 2^-53 is 0.5,
    2^52 * 2^-52 is 1.0 and 3 * 2^51 * 2^-53 is 0.75. *)
Example fair_assertions_binary64 :
  fair_binary64 ["H"; "H"; "T"; "T"] = Ok (S754_finite false 4503599627370496 (-53))
  ∧ fair_binary64 ["T"; "T"; "T"; "T"] = Ok (S754_zero false)
  ∧ fair_binary64 ["H"; "H"; "H"; "T"] = Ok (S754_finite false 6755399441055744 (-53))
  ∧ fair_binary64 ["H"; "H"; "H"; "H"] = Ok (S754_finite false 4503599627370496 (-52)).
Proof. repeat split; vm_compute; reflexivity. Qed.

(** C5.  On the empty sequence [fair] raises [ZeroDivisionError]: both
    operands of the division are then Python scalars, the default [0.0]
    and the empty sum [0].  In particular no number is returned. *)
Theorem fair_empty_raises :
  fair [] = Err ZeroDivisionError ∧ ∀ x : pyfloat, fair [] ≠ Ok x.
Proof. rewrite fair_empty. split; [done|]. intros x. discriminate. Qed.

(** C9.  [fair] does not depend on the order of its input: on a non-empty
    sequence and any rearrangement of it, it returns the same value. *)
Theorem fair_permutation_invariant (data data' : list string) :
  data ≠ [] → data ≡ₚ data' →
  ∃ x : pyfloat, fair data = Ok x ∧ fair data' = Ok x.
Proof.
  intros Hne Hperm.
  assert (data' ≠ []) as Hne'.
  { intros ->. by apply Permutation_nil_r in Hperm. }
  exists (Fin (ratio (H_count data) (Z.of_nat (length data)))).
  split; [by apply fair_nonempty|].
  rewrite fair_nonempty by done. unfold H_count.
  by rewrite (occurrences_Permutation _ _ _ Hperm), (Permutation_length Hperm).
Qed.

Lemma fair_permutation_invariant_witness :
  ["H"; "T"; "H"] ≠ []
  ∧ ["H"; "T"; "H"] ≡ₚ ["T"; "H"; "H"]
  ∧ ∃ x : pyfloat, fair ["H"; "T"; "H"] = Ok x ∧ fair ["T"; "H"; "H"] = Ok x.
Proof.
  assert (["H"; "T"; "H"] ≡ₚ ["T"; "H"; "H"]) as Hperm by apply perm_swap.
  split; [discriminate|]. split; [exact Hperm|].
  apply (fair_permutation_invariant ["H"; "T"; "H"] ["T"; "H"; "H"]);
    [discriminate | exact Hperm].
Defined.

(** *** The resampler *)

Section resampler_claims.
Context {A : Type}.
Implicit Types (xs ys : list A) (st : State A).

Lemma returned_array_bootstrap_data data xs st :
  heap st !! data = Some xs →
  returned_array (bootstrap_data data) st = Ok (resample xs (rng st)).
Proof.
  intros Hxs. unfold returned_array.
  rewrite (bootstrap_data_run data xs st Hxs).
  unfold after_resample. cbn [heap].
  by rewrite list_lookup_middle.
Qed.

(** C2.  On a non-empty array, whatever the state of the generator,
    [bootstrap_data] returns a new array of the same length whose
    elements all occur in the input; the input array, like every array
    allocated before the call, still holds what it held. *)
Theorem bootstrap_data_resamples (data : loc) xs st :
  heap st !! data = Some xs → xs ≠ [] →
  ∃ (out : loc) ys st',
    bootstrap_data data st = (Ok out, st')
    ∧ heap st' !! out = Some ys
    ∧ length ys = length xs
    ∧ (∀ y, y ∈ ys → y ∈ xs)
    ∧ out ≠ data
    ∧ heap st' !! data = Some xs
    ∧ ∀ (a : loc) zs, heap st !! a = Some zs → heap st' !! a = Some zs.
Proof.
  intros Hxs _.
  exists (length (heap st)), (resample xs (rng st)), (after_resample xs st).
  split; [by apply bootstrap_data_run|].
  unfold after_resample. cbn [heap].
  split; [by apply list_lookup_middle|].
  split; [apply resample_length|].
  split; [apply resample_elem_of|].
  split; [apply lookup_lt_Some in Hxs; unfold loc in *; lia|].
  split; [by apply lookup_app_l_Some|].
  intros a zs Ha. by apply lookup_app_l_Some.
Qed.

(** C4.  On an empty array [bootstrap_data] raises nothing: it returns a
    new, empty array, and draws nothing from the generator. *)
Theorem bootstrap_data_empty (data : loc) st :
  heap st !! data = Some [] →
  ∃ (out : loc) st',
    bootstrap_data data st = (Ok out, st')
    ∧ heap st' !! out = Some []
    ∧ rng st' = rng st.
Proof.
  intros Hxs. exists (length (heap st)), (after_resample [] st).
  split; [by apply bootstrap_data_run|].
  unfold after_resample. cbn [heap rng length].
  split; [by apply list_lookup_middle | apply advance_0].
Qed.

(** C8.  After [np.random.seed(s)], the array that [bootstrap_data]
    returns is determined by the seed and by the contents of the input:
    two runs, from whatever states, return the same sequence. *)
Theorem bootstrap_data_reproducible (generator : nat → nat → nat) (s : nat)
    (data : loc) xs st1 st2 :
  heap st1 !! data = Some xs → heap st2 !! data = Some xs →
  ∃ ys,
    returned_array (_ <- np_random_seed generator s ;; bootstrap_data data) st1
      = Ok ys
    ∧ returned_array (_ <- np_random_seed generator s ;; bootstrap_data data) st2
      = Ok ys.
Proof.
  intros H1 H2.
  exists (resample xs {| words := generator s; cursor := 0 |}).
  assert (∀ st, heap st !! data = Some xs →
    returned_array (_ <- np_random_seed generator s ;; bootstrap_data data) st
    = Ok (resample xs {| words := generator s; cursor := 0 |})) as Hrun.
  { intros st Hst. unfold returned_array.
    erewrite bind_Ok by (unfold np_random_seed, set_rng; reflexivity).
    erewrite bootstrap_data_run by exact Hst.
    unfold after_resample. cbn [heap rng].
    by rewrite list_lookup_middle. }
  split; by apply Hrun.
Qed.
End resampler_claims.

(** *** The harness *)

Section harness_claims.
Context {A : Type}.
Implicit Types (xs ys : list A) (st : State A) (f : list A → result pyfloat).

(** C3, as the code has it.  For a count [n ≥ 0] and an estimator that
    returns a number on each of the [n] resamples drawn,
    [bootstrap_function] returns exactly [n] values.  The [i]-th value is
    what the estimator returns on the [i]-th resample: the array that
    [bootstrap_data] returns once the [i] earlier resamples have each
    consumed their share of the generator's words.  The estimator is
    called on exactly these resamples, in this order. *)
Theorem bootstrap_function_values (junk : nat → pyfloat) (data : loc) xs f
    (n : Z) st :
  0 ≤ n → heap st !! data = Some xs →
  (∀ (i : nat) ys, (i < Z.to_nat n)%nat →
     returned_array (bootstrap_data data) (skip_words (i * length xs) st)
       = Ok ys →
     ∃ v, f ys = Ok v) →
  ∃ (values : list pyfloat) st',
    bootstrap_function junk data f n st = (Ok values, st')
    ∧ length values = Z.to_nat n
    ∧ length (calls st') = (length (calls st) + Z.to_nat n)%nat
    ∧ ∀ i : nat, (i < Z.to_nat n)%nat →
        ∃ ys v,
          returned_array (bootstrap_data data) (skip_words (i * length xs) st)
            = Ok ys
          ∧ f ys = Ok v
          ∧ values !! i = Some v
          ∧ calls st' !! (length (calls st) + i)%nat = Some ys.
Proof.
  intros Hn Hxs Hf.
  assert (∀ i : nat,
    returned_array (bootstrap_data data) (skip_words (i * length xs) st)
    = Ok (resample xs (advance (i * length xs) (rng st)))) as Hith.
  { intros i. by apply (returned_array_bootstrap_data data xs). }
  assert (Forall (λ ys, ∃ v, f ys = Ok v)
            (resamples xs (rng st) (Z.to_nat n))) as Hall.
  { apply Forall_lookup. intros i ys Hi.
    assert (i < Z.to_nat n)%nat as Hlt.
    { apply lookup_lt_Some in Hi. by rewrite resamples_length in Hi. }
    rewrite resamples_lookup in Hi by done. injection Hi as <-.
    by apply (Hf i). }
  destruct (estimates_when_returning f _ Hall) as (vs & Hest & Hvs).
  exists vs, (after_loop xs st (Z.to_nat n)).
  rewrite (bootstrap_function_outcome data xs f junk n st Hxs).
  rewrite decide_False by lia. rewrite Hest.
  split; [done|].
  split; [by rewrite <- (Forall2_length _ _ _ Hvs), resamples_length|].
  unfold after_loop. cbn [calls].
  split; [by rewrite length_app, resamples_length|].
  intros i Hi.
  pose proof (resamples_lookup xs (rng st) (Z.to_nat n) i Hi) as Hys.
  destruct (Forall2_lookup_l _ _ _ _ _ Hvs Hys) as (v & Hv & Hfv).
  exists (resample xs (advance (i * length xs) (rng st))), v.
  split; [apply Hith|]. split; [done|]. split; [done|].
  rewrite lookup_app_r by lia.
  replace (length (calls st) + i - length (calls st))%nat with i by lia.
  done.
Qed.

(** C6.  With a count of zero, [bootstrap_function] returns the empty
    collection and leaves the state as it was: nothing is drawn, nothing
    is allocated, and the estimator is not called.  The result is the
    same for every estimator. *)
Theorem bootstrap_function_zero (junk : nat → pyfloat) (data : loc) f st :
  bootstrap_function junk data f 0 st = (Ok [], st)
  ∧ ∀ f', bootstrap_function junk data f' 0 st
          = bootstrap_function junk data f 0 st.
Proof. done. Qed.

(** C7.  A negative count is refused: allocating the result array raises
    the error for a negative dimension, before anything is drawn and
    before the estimator is called. *)
Theorem bootstrap_function_negative (junk : nat → pyfloat) (data : loc) f
    (n : Z) st :
  n < 0 →
  bootstrap_function junk data f n st
  = (Err (ValueError "negative dimensions are not allowed"), st).
Proof.
  intros Hn. unfold bootstrap_function, np_empty.
  rewrite decide_True by done. done.
Qed.

Lemma resamples_nil (r : RandomState) k :
  resamples (@nil A) r k = replicate k [].
Proof.
  revert r. induction k as [|k IH]; intros r; [done|].
  simpl. by rewrite IH.
Qed.

(** C10, as the code has it.  On the empty array and for a count
    [n ≥ 1], the resampler accepts the input and every resample is
    empty, so the outcome is the estimator's: if it raises on the empty
    sequence, [bootstrap_function] raises the same exception after a
    single call and before any value is stored; if it returns [v] there,
    [bootstrap_function] returns [n] copies of [v]. *)
Theorem bootstrap_function_empty_input (junk : nat → pyfloat) (data : loc) f
    (n : Z) st :
  1 ≤ n → heap st !! data = Some [] →
  ∃ st',
    bootstrap_function junk data f n st
    = (match f [] with
       | Ok v => Ok (replicate (Z.to_nat n) v)
       | Err e => Err e
       end, st')
    ∧ calls st'
      = calls st ++ replicate (match f [] with
                               | Ok _ => Z.to_nat n
                               | Err _ => 1%nat
                               end) [].
Proof.
  intros Hn Hxs. destruct (f []) as [v|e] eqn:Hf.
  - exists (after_loop [] st (Z.to_nat n)). split.
    + rewrite (bootstrap_function_run data [] f (λ _, v)); [|  |lia|done].
      * by rewrite resamples_nil, fmap_replicate.
      * intros ys Hlen _. destruct ys; [done|discriminate].
    + unfold after_loop. cbn [calls]. by rewrite resamples_nil.
  - exists (after_iteration [] st). split; [|done].
    apply bootstrap_function_first_raise; [lia|done|done].
Qed.
End harness_claims.

(** *** The harness on the coin estimator *)

(** With [fair] as the estimator and a non-empty array of tosses, every
    resample is non-empty, so no call raises: the result is the list of
    the ratios of ["H"] in the successive resamples. *)
Lemma bootstrap_function_fair (junk : nat → pyfloat) (data : loc)
    (xs : list string) (n : Z) (st : State string) :
  xs ≠ [] → 0 ≤ n → heap st !! data = Some xs →
  bootstrap_function junk data fair n st
  = (Ok ((λ ys, Fin (ratio (H_count ys) (Z.of_nat (length ys))))
           <$> resamples xs (rng st) (Z.to_nat n)),
     after_loop xs st (Z.to_nat n)).
Proof.
  intros Hne Hn Hxs. apply bootstrap_function_run; [|done..].
  intros ys Hlen _. apply fair_nonempty.
  intros ->. destruct xs; [done|discriminate].
Qed.

(** Without a new seed the generator moves on, and a second resample of
    the same array may differ from the first. *)
Example second_resample_differs :
  returned_array (bootstrap_data 0%nat) (one_array coin_tosses)
  ≠ returned_array (bootstrap_data 0%nat)
      (after_resample coin_tosses (one_array coin_tosses)).
Proof. intros Heq. vm_compute in Heq. discriminate Heq. Qed.

(** *** Concrete runs *)

Lemma bootstrap_data_resamples_witness :
  heap (one_array coin_tosses) !! 0%nat = Some coin_tosses
  ∧ coin_tosses ≠ []
  ∧ ∃ (out : loc) ys st',
      bootstrap_data 0%nat (one_array coin_tosses) = (Ok out, st')
      ∧ heap st' !! out = Some ys
      ∧ length ys = length coin_tosses
      ∧ (∀ y, y ∈ ys → y ∈ coin_tosses)
      ∧ out ≠ 0%nat
      ∧ heap st' !! 0%nat = Some coin_tosses
      ∧ ∀ (a : loc) zs,
          heap (one_array coin_tosses) !! a = Some zs → heap st' !! a = Some zs.
Proof.
  split; [reflexivity|]. split; [discriminate|].
  apply (bootstrap_data_resamples 0%nat coin_tosses (one_array coin_tosses));
    [reflexivity | discriminate].
Defined.

Lemma bootstrap_data_empty_witness :
  heap (one_array []) !! 0%nat = Some []
  ∧ ∃ (out : loc) st',
      bootstrap_data 0%nat (one_array []) = (Ok out, st')
      ∧ heap st' !! out = Some []
      ∧ rng st' = rng (one_array []).
Proof.
  split; [reflexivity|].
  apply (bootstrap_data_empty 0%nat (one_array [])). reflexivity.
Defined.

Lemma bootstrap_data_reproducible_witness :
  heap (one_array ["A"; "B"]) !! 0%nat = Some ["A"; "B"]
  ∧ heap (after_resample ["A"; "B"] (one_array ["A"; "B"])) !! 0%nat
    = Some ["A"; "B"]
  ∧ ∃ ys,
      returned_array (_ <- np_random_seed toy_generator 42 ;; bootstrap_data 0%nat)
        (one_array ["A"; "B"]) = Ok ys
      ∧ returned_array (_ <- np_random_seed toy_generator 42 ;; bootstrap_data 0%nat)
          (after_resample ["A"; "B"] (one_array ["A"; "B"])) = Ok ys.
Proof.
  split; [reflexivity|]. split; [reflexivity|].
  apply (bootstrap_data_reproducible toy_generator 42 0%nat ["A"; "B"]);
    reflexivity.
Defined.

(** The notebook's own estimator on a non-empty array of tosses. *)
Lemma bootstrap_function_values_witness :
  0 ≤ 2
  ∧ heap (one_array coin_tosses) !! 0%nat = Some coin_tosses
  ∧ (∀ (i : nat) ys, (i < Z.to_nat 2)%nat →
       returned_array (bootstrap_data 0%nat)
         (skip_words (i * length coin_tosses) (one_array coin_tosses))
         = Ok ys →
       ∃ v, fair ys = Ok v)
  ∧ ∃ (values : list pyfloat) st',
      bootstrap_function no_junk 0%nat fair 2 (one_array coin_tosses)
      = (Ok values, st')
      ∧ length values = Z.to_nat 2
      ∧ length (calls st')
        = (length (calls (one_array coin_tosses)) + Z.to_nat 2)%nat
      ∧ ∀ i : nat, (i < Z.to_nat 2)%nat →
          ∃ ys v,
            returned_array (bootstrap_data 0%nat)
              (skip_words (i * length coin_tosses) (one_array coin_tosses))
              = Ok ys
            ∧ fair ys = Ok v
            ∧ values !! i = Some v
            ∧ calls st' !! (length (calls (one_array coin_tosses)) + i)%nat
              = Some ys.
Proof.
  assert (∀ (i : nat) ys, (i < Z.to_nat 2)%nat →
    returned_array (bootstrap_data 0%nat)
      (skip_words (i * length coin_tosses) (one_array coin_tosses)) = Ok ys →
    ∃ v, fair ys = Ok v) as Hreturns.
  { intros i ys Hi Hys. destruct i as [|[|i]].
    - vm_compute in Hys. injection Hys as <-. exists (Fin 1). reflexivity.
    - vm_compute in Hys. injection Hys as <-. exists (Fin 0). reflexivity.
    - vm_compute in Hi. lia. }
  split; [discriminate|]. split; [reflexivity|]. split; [exact Hreturns|].
  apply (bootstrap_function_values no_junk 0%nat coin_tosses fair 2
           (one_array coin_tosses));
    [discriminate | reflexivity | exact Hreturns].
Defined.

(** With the notebook's estimator, the empty array and one repetition,
    [bootstrap_function] returns no collection: the one resample is empty
    and [fair] raises on it. *)
Lemma bootstrap_function_values_counterexample :
  0 ≤ 1
  ∧ heap (one_array []) !! 0%nat = Some []
  ∧ bootstrap_function no_junk 0%nat fair 1 (one_array [])
    = (Err ZeroDivisionError,
       {| heap := [[]; []]; rng := rng (one_array []); calls := [[]] |}).
Proof. split; [discriminate|]. split; reflexivity. Qed.

Lemma bootstrap_function_negative_witness :
  -1 < 0
  ∧ bootstrap_function no_junk 0%nat fair (-1) (one_array coin_tosses)
    = (Err (ValueError "negative dimensions are not allowed"),
       one_array coin_tosses).
Proof.
  split; [reflexivity|].
  apply (bootstrap_function_negative no_junk 0%nat fair (-1)
           (one_array coin_tosses)).
  reflexivity.
Defined.

Lemma bootstrap_function_empty_input_witness :
  1 ≤ 3
  ∧ heap (one_array []) !! 0%nat = Some []
  ∧ ∃ st',
      bootstrap_function no_junk 0%nat fair 3 (one_array [])
      = (match fair [] with
         | Ok v => Ok (replicate (Z.to_nat 3) v)
         | Err e => Err e
         end, st')
      ∧ calls st'
        = calls (one_array [])
          ++ replicate (match fair [] with
                        | Ok _ => Z.to_nat 3
                        | Err _ => 1%nat
                        end) [].
Proof.
  split; [discriminate|]. split; [reflexivity|].
  apply (bootstrap_function_empty_input no_junk 0%nat fair 3 (one_array []));
    [discriminate | reflexivity].
Defined.

(** On the empty array, with one repetition and an estimator that ignores
    its argument, [bootstrap_function] raises nothing: it returns the one
    value the estimator gave for the empty resample. *)
Lemma bootstrap_function_empty_input_counterexample :
  heap (one_array []) !! 0%nat = Some []
  ∧ bootstrap_function no_junk 0%nat always_one 1 (one_array [])
    = (Ok [Fin 1],
       {| heap := [[]; []]; rng := rng (one_array []); calls := [[]] |}).
Proof. split; reflexivity. Qed.

(** ** More about the estimator *)

Section ratio_facts.
Implicit Types (a b c n m z : Z).

Lemma ratio_as_fraction c (p : positive) :
  (ratio c (Zpos p) == c # p)%Q.
Proof. rewrite ratio_spec. symmetry. apply Qmake_Qdiv. Qed.

Lemma Qred_inject_Z z : Qred (inject_Z z) = inject_Z z.
Proof. apply Qcanon.Qred_identity. simpl. apply Z.gcd_1_r. Qed.

Lemma ratio_eq_Z c n z : 0 < n → ratio c n = inject_Z z ↔ c = z * n.
Proof.
  intros Hn. destruct n as [|p|p]; try lia. split.
  - intros Heq. pose proof (ratio_as_fraction c p) as Hq.
    rewrite Heq in Hq. unfold Qeq in Hq. simpl in Hq. lia.
  - intros ->. rewrite <- (Qred_inject_Z z). unfold ratio.
    apply Qred_complete. rewrite <- Qmake_Qdiv.
    unfold Qeq. simpl. lia.
Qed.

Lemma ratio_le a n b m :
  0 < n → 0 < m → (ratio a n <= ratio b m)%Q ↔ a * m ≤ b * n.
Proof.
  intros Hn Hm. destruct n as [|p|p], m as [|q|q]; try lia.
  rewrite !ratio_as_fraction. unfold Qle. simpl. done.
Qed.
End ratio_facts.

Section estimator_extras.
Implicit Types (data : list string).

Lemma occurrences_present k data : k ∈ data → (0 < occurrences k data)%nat.
Proof.
  induction 1 as [x l|x y l _ IH]; rewrite occurrences_cons.
  - rewrite decide_True by done. lia.
  - lia.
Qed.

Lemma occurrences_all k data :
  occurrences k data = length data ↔ ∀ x, x ∈ data → x = k.
Proof.
  induction data as [|y l IH].
  - split; [|done]. intros _ x Hx. by apply elem_of_nil in Hx.
  - rewrite occurrences_cons. pose proof (occurrences_le k l) as Hle.
    simpl length. destruct (decide (k = y)) as [->|Hne].
    + split.
      * intros Heq x [->|Hx]%elem_of_cons; [done|]. apply IH; [lia|done].
      * intros Hall. f_equal. apply IH. intros x Hx.
        by apply Hall, list_elem_of_further.
    + split; [lia|]. intros Hall. exfalso. apply Hne.
      symmetry. apply Hall, list_elem_of_here.
Qed.

Lemma occurrences_app k data data' :
  occurrences k (data ++ data') = (occurrences k data + occurrences k data')%nat.
Proof. unfold occurrences. by rewrite filter_app, length_app. Qed.

Lemma length_pos data : data ≠ [] → 0 < Z.of_nat (length data).
Proof. destruct data; [done|]. simpl. lia. Qed.

Lemma fair_without_H data : data ≠ [] → "H" ∉ data → fair data = Ok (Fin 0).
Proof.
  intros Hne Hnot. rewrite fair_nonempty by done. unfold H_count.
  rewrite occurrences_absent by done. done.
Qed.

Lemma fair_only_H data :
  data ≠ [] → (∀ x, x ∈ data → x = "H") → fair data = Ok (Fin 1).
Proof.
  intros Hne Hall. rewrite fair_nonempty by done. do 2 f_equal.
  change 1%Q with (inject_Z 1). apply ratio_eq_Z; [by apply length_pos|].
  unfold H_count. apply occurrences_all in Hall. lia.
Qed.

(** X1.  On a non-empty sequence the estimate is exactly 0.0 when, and
    only when, no element is ["H"]: the key is then missing from the
    counts and [.get] returns its default. *)
Theorem fair_zero_iff_no_H data :
  data ≠ [] → fair data = Ok (Fin 0) ↔ "H" ∉ data.
Proof.
  intros Hne. rewrite fair_nonempty by done.
  pose proof (ratio_eq_Z (H_count data) _ 0 (length_pos data Hne)) as Hz.
  unfold H_count in *. split.
  - intros [= Heq] Hin. change 0%Q with (inject_Z 0) in Heq.
    apply Hz in Heq. apply occurrences_present in Hin. lia.
  - intros Hnot. rewrite <- (fair_without_H data Hne Hnot).
    by rewrite fair_nonempty.
Qed.

(** X2.  On a non-empty sequence the estimate is exactly 1.0 when, and
    only when, every element is ["H"]. *)
Theorem fair_one_iff_all_H data :
  data ≠ [] → fair data = Ok (Fin 1) ↔ ∀ x, x ∈ data → x = "H".
Proof.
  intros Hne. rewrite fair_nonempty by done.
  pose proof (ratio_eq_Z (H_count data) _ 1 (length_pos data Hne)) as Hz.
  unfold H_count in *. rewrite <- occurrences_all. split.
  - intros [= Heq]. change 1%Q with (inject_Z 1) in Heq.
    apply Hz in Heq. lia.
  - intros Hall. do 2 f_equal. change 1%Q with (inject_Z 1).
    apply Hz. lia.
Qed.

(** X3.  The estimator only tells ["H"] from the rest: renaming the other
    labels, in any way that neither creates nor removes an ["H"], leaves
    the outcome unchanged (the error on the empty sequence included). *)
Theorem fair_relabel (h : string → string) data :
  (∀ x, h x = "H" ↔ x = "H") → fair (h <$> data) = fair data.
Proof.
  intros Hh.
  assert (∀ l, occurrences "H" (h <$> l) = occurrences "H" l) as Hocc.
  { induction l as [|x l IH]; [done|].
    rewrite fmap_cons, !occurrences_cons, IH. f_equal.
    destruct (decide ("H" = x)) as [<-|Hx].
    - rewrite decide_True; [done|]. symmetry. by apply Hh.
    - rewrite decide_False; [done|]. intros Heq. apply Hx.
      symmetry. apply Hh. done. }
  destruct data as [|y l]; [done|].
  rewrite !fair_nonempty by done. unfold H_count.
  by rewrite Hocc, length_fmap.
Qed.

(** X4.  Pooling two samples gives an estimate between the two estimates. *)
Theorem fair_pooled data data' (p q : Q) :
  fair data = Ok (Fin p) → fair data' = Ok (Fin q) → (p <= q)%Q →
  ∃ r : Q, fair (data ++ data') = Ok (Fin r) ∧ (p <= r <= q)%Q.
Proof.
  intros Hp Hq Hle.
  assert (data ≠ []) as Hne by (intros ->; by rewrite fair_empty in Hp).
  assert (data' ≠ []) as Hne' by (intros ->; by rewrite fair_empty in Hq).
  rewrite fair_nonempty in Hp, Hq by done.
  injection Hp as <-. injection Hq as <-.
  eexists. split.
  { apply fair_nonempty. intros [??]%app_eq_nil. done. }
  pose proof (length_pos _ Hne) as Hn. pose proof (length_pos _ Hne') as Hn'.
  unfold H_count in *. rewrite occurrences_app, length_app, !Nat2Z.inj_add.
  apply (proj1 (ratio_le _ _ _ _ Hn Hn')) in Hle.
  split; apply ratio_le; nia.
Qed.

(** X5.  [fair] never returns NaN or an infinity, and raises nothing but
    [ZeroDivisionError]: it returns a finite value between 0 and 1 on a
    non-empty sequence, and raises on the empty one only. *)
Theorem fair_outcomes data :
  match fair data with
  | Ok (Fin q) => data ≠ [] ∧ (0 <= q <= 1)%Q
  | Ok _ => False
  | Err e => data = [] ∧ e = ZeroDivisionError
  end.
Proof.
  destruct data as [|y l].
  - by rewrite fair_empty.
  - rewrite fair_nonempty by done. split; [done|].
    apply ratio_bounds.
    + unfold H_count. pose proof (occurrences_le "H" (y :: l)). lia.
    + by apply length_pos.
Qed.
End estimator_extras.

(** ** More about the resampler *)

Section resampler_extras.
Context {A : Type}.
Implicit Types (xs ys : list A) (st : State A) (r : RandomState).

Lemma all_equal_replicate xs (x : A) :
  (∀ y, y ∈ xs → y = x) → xs = replicate (length xs) x.
Proof.
  induction xs as [|y xs IH]; intros Hall; [done|]. simpl. f_equal.
  - apply Hall, list_elem_of_here.
  - apply IH. intros z Hz. by apply Hall, list_elem_of_further.
Qed.

(** X7.  An array whose elements are all equal is resampled to an array
    with the same contents, whatever the generator.  In particular an
    array of one element is. *)
Theorem bootstrap_data_constant (data : loc) xs (x : A) st :
  heap st !! data = Some xs → (∀ y, y ∈ xs → y = x) →
  returned_array (bootstrap_data data) st = Ok xs.
Proof.
  intros Hxs Hall.
  rewrite (returned_array_bootstrap_data data xs) by done. f_equal.
  rewrite (all_equal_replicate xs x Hall) at 2.
  rewrite <- (resample_length xs (rng st)).
  apply all_equal_replicate. intros y Hy.
  by apply Hall, (resample_elem_of xs (rng st)).
Qed.
End resampler_extras.

(** ** More about the harness *)


Section harness_extras.
Context {A : Type}.
Implicit Types (xs ys : list A) (st : State A) (f : list A → result pyfloat).

Lemma resamples_Forall xs (r : RandomState) (k : nat) :
  Forall (λ ys, length ys = length xs ∧ ∀ y, y ∈ ys → y ∈ xs) (resamples xs r k).
Proof.
  revert r. induction k as [|k IH]; intros r; constructor; [|apply IH].
  split; [apply resample_length | apply resample_elem_of].
Qed.

Lemma fmap_constant {B C} (c : C) (l : list B) :
  (λ _, c) <$> l = replicate (length l) c.
Proof. induction l as [|x l IH]; [done|]. simpl. by f_equal. Qed.

(** X8.  When the estimator returns on the first [k] resamples and raises
    on the next one, [bootstrap_function] raises the same exception and
    returns no value.  By then it has drawn [k + 1] resamples and called
    the estimator [k + 1] times; the later resamples are never drawn. *)
Theorem bootstrap_function_raises_at (junk : nat → pyfloat) (data : loc) xs f
    (n : Z) st (k : nat) (e : exception) :
  heap st !! data = Some xs → (k < Z.to_nat n)%nat →
  (∀ j : nat, (j < k)%nat →
     ∃ v, f (resample xs (advance (j * length xs) (rng st))) = Ok v) →
  f (resample xs (advance (k * length xs) (rng st))) = Err e →
  ∃ st',
    bootstrap_function junk data f n st = (Err e, st')
    ∧ heap st' = heap st ++ resamples xs (rng st) (S k)
    ∧ calls st' = calls st ++ resamples xs (rng st) (S k)
    ∧ rng st' = advance (S k * length xs) (rng st).
Proof.
  intros Hxs Hk Hbefore Hf.
  rewrite (bootstrap_function_outcome data xs f junk n st Hxs).
  rewrite decide_False by lia.
  destruct (estimates_first_raise f (resamples xs (rng st) (Z.to_nat n)) k
              (resample xs (advance (k * length xs) (rng st))) e)
    as (vs & -> & <-); [by apply resamples_lookup| |done|].
  - intros j zs Hj Hzs. rewrite resamples_lookup in Hzs by lia.
    injection Hzs as <-. by apply Hbefore.
  - by eexists.
Qed.

(** X9.  What [np.empty] happened to find in memory never shows: the
    outcome is the same for any initial contents of the result array,
    for every estimator and every count. *)
Theorem bootstrap_function_ignores_junk (junk junk' : nat → pyfloat)
    (data : loc) xs f (n : Z) st :
  heap st !! data = Some xs →
  bootstrap_function junk data f n st = bootstrap_function junk' data f n st.
Proof.
  intros Hxs.
  by rewrite !(bootstrap_function_outcome data xs f _ n st Hxs).
Qed.

(** X10.  The harness changes no array, whether it returns or raises: the
    heap afterwards is the heap before followed by new arrays, each of
    them of the length of the input and made of its elements. *)
Theorem bootstrap_function_only_allocates (junk : nat → pyfloat) (data : loc)
    xs f (n : Z) st :
  heap st !! data = Some xs →
  ∃ new : list (list A),
    heap (bootstrap_function junk data f n st).2 = heap st ++ new
    ∧ Forall (λ ys, length ys = length xs ∧ ∀ y, y ∈ ys → y ∈ xs) new
    ∧ (length new ≤ Z.to_nat n)%nat.
Proof.
  intros Hxs.
  rewrite (bootstrap_function_outcome data xs f junk n st Hxs).
  destruct (decide (n < 0)) as [Hn|Hn].
  { exists []. simpl. rewrite app_nil_r.
    split; [done|]. split; [constructor|lia]. }
  destruct (estimates f _) as [vs [e|]] eqn:Hest; simpl.
  - exists (resamples xs (rng st) (S (length vs))).
    split; [done|]. split; [apply resamples_Forall|].
    apply estimates_raise_length in Hest.
    rewrite resamples_length in *. lia.
  - exists (resamples xs (rng st) (Z.to_nat n)).
    split; [done|]. split; [apply resamples_Forall|].
    by rewrite resamples_length.
Qed.

(** X11.  With an estimator that returns the same number on every array,
    the harness returns that number [n] times, for every input array (the
    empty one included) and every generator: the first test of the
    notebook, [bootstrap_function(test_data, lambda data: 1.0, 10)],
    cannot fail. *)
Theorem bootstrap_function_constant (junk : nat → pyfloat) (data : loc) xs
    (c : pyfloat) (n : Z) st :
  heap st !! data = Some xs → 0 ≤ n →
  ∃ st',
    bootstrap_function junk data (constant_estimator c) n st
    = (Ok (replicate (Z.to_nat n) c), st').
Proof.
  intros Hxs Hn.
  rewrite (bootstrap_function_outcome data xs _ junk n st Hxs).
  rewrite decide_False by lia.
  rewrite (estimates_all_return _ (λ _, c)) by (by apply Forall_true).
  rewrite fmap_constant, resamples_length. by eexists.
Qed.
End harness_extras.

Section harness_on_coins.
Implicit Types (xs ys : list string) (st : State string).

(** X12.  With [fair] as the estimator and a non-empty array, no call
    raises.  Each of the [n] values is a number of ["H"]s between 0 and
    the length of the array, over that length; so each lies between 0
    and 1. *)
Theorem bootstrap_function_fair_values (junk : nat → pyfloat) (data : loc) xs
    (n : Z) st :
  xs ≠ [] → 0 ≤ n → heap st !! data = Some xs →
  ∃ (values : list pyfloat) st',
    bootstrap_function junk data fair n st = (Ok values, st')
    ∧ length values = Z.to_nat n
    ∧ Forall (λ v, ∃ c : Z,
                0 ≤ c ≤ Z.of_nat (length xs)
                ∧ v = Fin (ratio c (Z.of_nat (length xs)))
                ∧ (0 <= ratio c (Z.of_nat (length xs)) <= 1)%Q) values.
Proof.
  intros Hne Hn Hxs. rewrite (bootstrap_function_fair junk data xs n st) by done.
  eexists _, _. split; [done|].
  split; [by rewrite length_fmap, resamples_length|].
  apply Forall_fmap. eapply Forall_impl; [apply resamples_Forall|].
  intros ys [Hlen _]. simpl. exists (H_count ys).
  assert (0 ≤ H_count ys ≤ Z.of_nat (length xs)) as Hc.
  { unfold H_count. pose proof (occurrences_le "H" ys). lia. }
  split; [done|]. rewrite Hlen. split; [done|].
  apply ratio_bounds; [done|]. by apply length_pos.
Qed.

(** X13.  Resampling creates no label.  If the array holds no ["H"],
    every bootstrapped estimate is 0.0; if it holds nothing but ["H"],
    every one is 1.0. *)
Theorem bootstrap_function_fair_degenerate (junk : nat → pyfloat) (data : loc)
    xs (n : Z) st :
  xs ≠ [] → 0 ≤ n → heap st !! data = Some xs →
  ("H" ∉ xs →
     (bootstrap_function junk data fair n st).1
     = Ok (replicate (Z.to_nat n) (Fin 0)))
  ∧ ((∀ x, x ∈ xs → x = "H") →
     (bootstrap_function junk data fair n st).1
     = Ok (replicate (Z.to_nat n) (Fin 1))).
Proof.
  intros Hne Hn Hxs.
  assert (∀ (c : pyfloat),
    Forall (λ ys, fair ys = Ok c) (resamples xs (rng st) (Z.to_nat n)) →
    (bootstrap_function junk data fair n st).1
    = Ok (replicate (Z.to_nat n) c)) as Hall.
  { intros c Hc.
    rewrite (bootstrap_function_outcome data xs fair junk n st Hxs).
    rewrite decide_False by lia.
    rewrite (estimates_all_return _ (λ _, c)) by done.
    by rewrite fmap_constant, resamples_length. }
  split; intros Hlabels; apply Hall;
    (eapply Forall_impl; [apply resamples_Forall|]); intros ys [Hlen Hin].
  - apply fair_without_H.
    + intros ->. destruct xs; [done|discriminate].
    + intros HH. by apply Hlabels, Hin.
  - apply fair_only_H.
    + intros ->. destruct xs; [done|discriminate].
    + intros x Hx. by apply Hlabels, Hin.
Qed.
End harness_on_coins.

(** ** The cell that prints twenty estimates *)

Section printing_cell.
Implicit Types (xs ys : list string) (st : State string).

Local Abbreviation print_body data :=
  (λ (i : nat) (printed : list pyfloat),
     re_data <- bootstrap_data data ;;
     xs <- read re_data ;;
     v <- lift (fair xs) ;;
     ret (printed ++ [v])).

Lemma after_resamples_0 xs st : after_resamples xs st 0 = st.
Proof.
  destruct st as [h r c]. unfold after_resamples. simpl.
  by rewrite app_nil_r, advance_0.
Qed.

Lemma after_resamples_S xs st k :
  after_resamples xs (after_resample xs st) k = after_resamples xs st (S k).
Proof.
  unfold after_resamples, after_resample. simpl.
  by rewrite <- app_assoc, advance_advance.
Qed.

Lemma print_iteration (data : loc) xs i printed st :
  heap st !! data = Some xs →
  print_body data i printed st
  = (match fair (resample xs (rng st)) with
     | Ok v => Ok (printed ++ [v])
     | Err e => Err e
     end, after_resample xs st).
Proof.
  intros Hxs. cbv beta.
  rewrite (bind_Ok _ _ _ _ _ (bootstrap_data_run data xs st Hxs)).
  erewrite bind_Ok; last first.
  { apply read_Some. unfold after_resample. cbn [heap].
    by apply list_lookup_middle. }
  unfold bind, lift, ret. by destruct (fair _).
Qed.

Lemma print_loop (data : loc) xs k : ∀ i printed st,
  xs ≠ [] → heap st !! data = Some xs →
  for_each (seq i k) (print_body data) printed st
  = (Ok (printed ++ ((λ ys, Fin (ratio (H_count ys) (Z.of_nat (length ys))))
                      <$> resamples xs (rng st) k)),
     after_resamples xs st k).
Proof.
  induction k as [|k IH]; intros i printed st Hne Hxs.
  - simpl. by rewrite after_resamples_0, app_nil_r.
  - cbn [seq for_each resamples].
    erewrite bind_Ok; last first.
    { rewrite (print_iteration data xs) by done.
      rewrite fair_nonempty; [done|].
      intros Hnil. apply Hne. apply (f_equal length) in Hnil.
      rewrite resample_length in Hnil. by destruct xs. }
    rewrite IH; [|done|by apply lookup_app_l_Some].
    rewrite after_resamples_S. cbn [rng after_resample fmap list_fmap].
    by rewrite <- app_assoc.
Qed.

(** X14.  On a non-empty array the cell prints exactly twenty values and
    raises nothing; each value lies between 0 and 1.  The array itself is
    left as it was. *)
Theorem print_resampled_fairness_prints (data : loc) xs st :
  xs ≠ [] → heap st !! data = Some xs →
  ∃ (printed : list pyfloat) st',
    print_resampled_fairness data st = (Ok printed, st')
    ∧ length printed = 20%nat
    ∧ Forall (finite_between 0 1) printed
    ∧ heap st' !! data = Some xs.
Proof.
  intros Hne Hxs. unfold print_resampled_fairness, range.
  rewrite (print_loop data xs) by done. rewrite app_nil_l.
  eexists _, _. split; [done|].
  split; [by rewrite length_fmap, resamples_length|].
  split; [|by apply lookup_app_l_Some].
  apply Forall_fmap. eapply Forall_impl; [apply resamples_Forall|].
  intros ys [Hlen _]. simpl. eexists. split; [done|].
  apply ratio_bounds.
  - unfold H_count. pose proof (occurrences_le "H" ys). lia.
  - rewrite Hlen. by apply length_pos.
Qed.

(** X15.  On an empty array the cell raises [ZeroDivisionError] in its
    first turn: the first resample is empty and [fair] is applied to it. *)
Theorem print_resampled_fairness_empty (data : loc) st :
  heap st !! data = Some [] →
  print_resampled_fairness data st
  = (Err ZeroDivisionError, after_resample [] st).
Proof.
  intros Hxs. unfold print_resampled_fairness, range.
  change (seq 0 (Z.to_nat 20)) with (0%nat :: seq 1 19).
  cbn [for_each]. erewrite bind_Err; [done|].
  by rewrite (print_iteration data []).
Qed.
End printing_cell.

(** ** The statistics of the bootstrapped values *)

Section statistics.
Implicit Types (x y : pyfloat) (l : list pyfloat) (lo hi : Q).

Lemma finite_between_weaken lo hi lo' hi' x :
  (lo' <= lo)%Q → (hi <= hi')%Q →
  finite_between lo hi x → finite_between lo' hi' x.
Proof. intros ?? (q & -> & ?). exists q. split; [done|]. lra. Qed.

Lemma float_add_between a b c d x y :
  finite_between a b x → finite_between c d y →
  finite_between (a + c) (b + d) (float_add x y).
Proof.
  intros (p & -> & Hp) (q & -> & Hq). eexists. split; [done|].
  rewrite Qred_correct. lra.
Qed.

Lemma float_sub_between a b c d x y :
  finite_between a b x → finite_between c d y →
  finite_between (a - d) (b - c) (float_sub x y).
Proof.
  intros (p & -> & Hp) (q & -> & Hq). eexists. split; [done|].
  rewrite !Qred_correct. lra.
Qed.

Lemma float_square_between x :
  finite_between (-1) 1 x → finite_between 0 1 (float_mul x x).
Proof.
  intros (p & -> & Hp). eexists. split; [done|].
  rewrite Qred_correct. nra.
Qed.

Lemma np_sum_from_between lo hi l : ∀ a : Q,
  Forall (finite_between lo hi) l →
  ∃ s : Q,
    fold_left float_add l (Fin a) = Fin s
    ∧ (a + inject_Z (Z.of_nat (length l)) * lo <= s
       <= a + inject_Z (Z.of_nat (length l)) * hi)%Q.
Proof.
  induction l as [|x l IH]; intros a Hl.
  - exists a. split; [done|].
    change (inject_Z (Z.of_nat (length (@nil pyfloat)))) with 0%Q. lra.
  - inversion Hl as [|? ? (q & -> & Hq) Hl']; subst.
    destruct (IH (Qred (a + q)) Hl') as (s & Hs & Hb).
    exists s. split; [done|].
    rewrite Qred_correct in Hb.
    replace (Z.of_nat (length (Fin q :: l))) with (Z.of_nat (length l) + 1)
      by (simpl length; lia).
    rewrite inject_Z_plus. change (inject_Z 1) with 1%Q.
    set (K := inject_Z (Z.of_nat (length l))) in *. lra.
Qed.

Lemma np_mean_between lo hi l :
  l ≠ [] → Forall (finite_between lo hi) l → finite_between lo hi (np_mean l).
Proof.
  intros Hne Hl. unfold np_mean, np_sum.
  destruct (np_sum_from_between lo hi l 0 Hl) as (s & -> & Hs).
  assert (0 < Z.of_nat (length l)) as Hn by (destruct l; [done|simpl; lia]).
  rewrite float_div_finite by lia. eexists. split; [done|].
  rewrite Qred_correct.
  set (K := inject_Z (Z.of_nat (length l))) in *.
  assert (0 < K)%Q as HK by (unfold K, Qlt; simpl; lia).
  split.
  - apply Qle_shift_div_l; [done|]. lra.
  - apply Qle_shift_div_r; [done|]. lra.
Qed.

Lemma np_var_between l :
  l ≠ [] → Forall (finite_between 0 1) l → finite_between 0 1 (np_var l).
Proof.
  intros Hne Hl. unfold np_var.
  pose proof (np_mean_between 0 1 l Hne Hl) as Hm.
  apply np_mean_between.
  - by destruct l.
  - apply Forall_fmap. eapply Forall_impl; [exact Hl|].
    intros x Hx. simpl. apply float_square_between.
    eapply finite_between_weaken; [| |by apply float_sub_between]; lra.
Qed.

Lemma np_mean_empty : np_mean [] = NaN.
Proof. reflexivity. Qed.

Lemma np_var_empty : np_var [] = NaN.
Proof. reflexivity. Qed.
End statistics.

(** ** The harness on the mean of an integer array *)

Section harness_on_means.
Implicit Types (xs ys : list Z) (st : State Z).

Lemma ints_between (lo hi : Z) ys :
  (∀ y, y ∈ ys → lo ≤ y ≤ hi) →
  Forall (finite_between (inject_Z lo) (inject_Z hi))
    ((λ z, Fin (inject_Z z)) <$> ys).
Proof.
  intros Hys. apply Forall_fmap, Forall_forall. intros y Hy.
  exists (inject_Z y). split; [done|].
  destruct (Hys y Hy). unfold Qle. simpl. lia.
Qed.

(** X16.  With the mean as the estimator, as in the second test of the
    notebook, and a non-empty array of integers between [lo] and [hi]
    small enough for its sums to be exact, no call raises and every
    bootstrapped mean lies between [lo] and [hi]; so does the mean of
    these means when there is at least one and their number keeps the
    bounds of the partial sums exact. *)
Theorem bootstrap_function_mean_within (junk : nat → pyfloat) (data : loc)
    xs (lo hi : Z) (n : Z) st :
  xs ≠ [] → (∀ x, x ∈ xs → lo ≤ x ≤ hi) →
  exact_sums (Z.of_nat (length xs)) lo hi →
  0 ≤ n → heap st !! data = Some xs →
  ∃ (values : list pyfloat) st',
    bootstrap_function junk data array_mean n st = (Ok values, st')
    ∧ length values = Z.to_nat n
    ∧ Forall (finite_between (inject_Z lo) (inject_Z hi)) values
    ∧ (1 ≤ n → exact_sums n lo hi →
       finite_between (inject_Z lo) (inject_Z hi) (np_mean values)).
Proof.
  intros Hne Hrange _ Hn Hxs.
  rewrite (bootstrap_function_run data xs array_mean
             (λ ys, np_mean ((λ z, Fin (inject_Z z)) <$> ys))) by done.
  eexists _, _. split; [done|].
  split; [by rewrite length_fmap, resamples_length|].
  assert (Forall (finite_between (inject_Z lo) (inject_Z hi))
            ((λ ys, np_mean ((λ z, Fin (inject_Z z)) <$> ys))
               <$> resamples xs (rng st) (Z.to_nat n))) as Hall.
  { apply Forall_fmap. eapply Forall_impl; [apply resamples_Forall|].
    intros ys [Hlen Hin]. simpl. apply np_mean_between.
    - intros Hnil%fmap_nil_inv. subst ys. by destruct xs.
    - apply ints_between. intros y Hy. by apply Hrange, Hin. }
  split; [done|]. intros Hn1 _. apply np_mean_between; [|done].
  intros Hnil%fmap_nil_inv. apply (f_equal length) in Hnil.
  rewrite resamples_length in Hnil. simpl in Hnil. lia.
Qed.

End harness_on_means.

(** ** Bias and variance *)

Section bias_and_variance_cell.
Implicit Types (xs ys : list string) (st : State string).

Lemma fair_values_between xs (r : RandomState) (k : nat) :
  xs ≠ [] →
  Forall (finite_between 0 1)
    ((λ ys, Fin (ratio (H_count ys) (Z.of_nat (length ys))))
       <$> resamples xs r k).
Proof.
  intros Hne. apply Forall_fmap.
  eapply Forall_impl; [apply resamples_Forall|].
  intros ys [Hlen _]. simpl. eexists. split; [done|].
  apply ratio_bounds.
  - unfold H_count. pose proof (occurrences_le "H" ys). lia.
  - rewrite Hlen. by apply length_pos.
Qed.

(** X18.  For a non-empty array and at least one repetition the cell
    raises nothing; the bias is a finite number between -1 and 1 and the
    variance a finite number between 0 and 1. *)
Theorem bias_and_variance_bounds (junk : nat → pyfloat) (data : loc) xs
    (n : Z) st :
  xs ≠ [] → 1 ≤ n → heap st !! data = Some xs →
  ∃ (bias var : pyfloat) st',
    bias_and_variance junk data n st = (Ok (bias, var), st')
    ∧ finite_between (-1) 1 bias
    ∧ finite_between 0 1 var.
Proof.
  intros Hne Hn Hxs. unfold bias_and_variance.
  erewrite bind_Ok by (apply (bootstrap_function_fair junk data xs); (done || lia)).
  erewrite bind_Ok; last first.
  { apply read_Some. unfold after_loop. cbn [heap].
    by apply lookup_app_l_Some. }
  unfold bind, lift, ret. rewrite fair_nonempty by done.
  eexists _, _, _. split; [done|].
  pose proof (fair_values_between xs (rng st) (Z.to_nat n) Hne) as Hall.
  assert ((λ ys, Fin (ratio (H_count ys) (Z.of_nat (length ys))))
            <$> resamples xs (rng st) (Z.to_nat n) ≠ []) as Hvalues.
  { intros Hnil%fmap_nil_inv. apply (f_equal length) in Hnil.
    rewrite resamples_length in Hnil. simpl in Hnil. lia. }
  split.
  - eapply finite_between_weaken; [| |apply float_sub_between].
    3: by apply (np_mean_between 0 1).
    3: { eexists. split; [done|]. apply ratio_bounds.
         - unfold H_count. pose proof (occurrences_le "H" xs). lia.
         - by apply length_pos. }
    all: lra.
  - by apply np_var_between.
Qed.

(** X19.  For an empty array the cell raises [ZeroDivisionError],
    whatever the number of repetitions: from the harness when there is at
    least one, from [fair(data)] when there is none. *)
Theorem bias_and_variance_empty (junk : nat → pyfloat) (data : loc)
    (n : Z) st :
  0 ≤ n → heap st !! data = Some [] →
  ∃ st', bias_and_variance junk data n st = (Err ZeroDivisionError, st').
Proof.
  intros Hn Hxs. unfold bias_and_variance.
  destruct (decide (n = 0)) as [->|Hn0].
  - erewrite bind_Ok by reflexivity.
    erewrite bind_Ok by by apply read_Some.
    by eexists.
  - erewrite bind_Err; [by eexists|].
    apply (bootstrap_function_first_raise data []); [lia|done|].
    by rewrite resample_nil.
Qed.

(** X20.  With no repetition and a non-empty array the cell raises
    nothing and changes nothing: the mean and the variance of no value
    are NaN, and so is the bias. *)
Theorem bias_and_variance_no_repetition (junk : nat → pyfloat) (data : loc)
    xs st :
  xs ≠ [] → heap st !! data = Some xs →
  bias_and_variance junk data 0 st = (Ok (NaN, NaN), st).
Proof.
  intros Hne Hxs. unfold bias_and_variance.
  erewrite bind_Ok by reflexivity.
  erewrite bind_Ok by by apply read_Some.
  unfold bind, lift, ret. by rewrite fair_nonempty.
Qed.
End bias_and_variance_cell.

(** ** Concrete runs of the further properties *)

Lemma fair_zero_iff_no_H_witness :
  ["T"; "T"] ≠ [] ∧ (fair ["T"; "T"] = Ok (Fin 0) ↔ "H" ∉ ["T"; "T"]).
Proof.
  split; [discriminate|]. apply (fair_zero_iff_no_H ["T"; "T"]). discriminate.
Defined.

Lemma fair_one_iff_all_H_witness :
  ["H"; "H"] ≠ []
  ∧ (fair ["H"; "H"] = Ok (Fin 1) ↔ ∀ x, x ∈ ["H"; "H"] → x = "H").
Proof.
  split; [discriminate|]. apply (fair_one_iff_all_H ["H"; "H"]). discriminate.
Defined.

(** Every label that is not ["H"] becomes ["T"]. *)
Lemma fair_relabel_witness :
  (∀ x : string, (if decide (x = "H") then "H" else "T") = "H" ↔ x = "H")
  ∧ fair ((λ x : string, if decide (x = "H") then "H" else "T")
            <$> ["H"; "a"; "b"; "H"])
    = fair ["H"; "a"; "b"; "H"].
Proof.
  assert (∀ x : string, (if decide (x = "H") then "H" else "T") = "H" ↔ x = "H")
    as Hh.
  { intros x. destruct (decide (x = "H")) as [->|Hx]; split; intros Heq;
      (reflexivity || discriminate Heq || (exfalso; exact (Hx Heq))). }
  split; [exact Hh|].
  apply (fair_relabel (λ x : string, if decide (x = "H") then "H" else "T")
           ["H"; "a"; "b"; "H"] Hh).
Defined.

Lemma fair_pooled_witness :
  fair ["H"; "T"] = Ok (Fin (1 # 2))
  ∧ fair ["H"; "H"; "T"] = Ok (Fin (2 # 3))
  ∧ (1 # 2 <= 2 # 3)%Q
  ∧ ∃ r : Q,
      fair (["H"; "T"] ++ ["H"; "H"; "T"]) = Ok (Fin r)
      ∧ (1 # 2 <= r <= 2 # 3)%Q.
Proof.
  assert (1 # 2 <= 2 # 3)%Q as Hle by (unfold Qle; simpl; lia).
  split; [reflexivity|]. split; [reflexivity|]. split; [exact Hle|].
  apply (fair_pooled ["H"; "T"] ["H"; "H"; "T"] (1 # 2) (2 # 3));
    [reflexivity | reflexivity | exact Hle].
Defined.

Lemma bootstrap_data_constant_witness :
  heap (one_array ["H"; "H"]) !! 0%nat = Some ["H"; "H"]
  ∧ (∀ y, y ∈ ["H"; "H"] → y = "H")
  ∧ returned_array (bootstrap_data 0%nat) (one_array ["H"; "H"])
    = Ok ["H"; "H"].
Proof.
  assert (∀ y : string, y ∈ ["H"; "H"] → y = "H") as Hall.
  { intros y Hy.
    repeat (apply elem_of_cons in Hy as [->|Hy]; [reflexivity|]).
    by apply elem_of_nil in Hy. }
  split; [reflexivity|]. split; [exact Hall|].
  apply (bootstrap_data_constant 0%nat ["H"; "H"] "H" (one_array ["H"; "H"]));
    [reflexivity | exact Hall].
Defined.

(** With the generator of [one_array] the first resample of H, T, T is
    H, H, H and the second is T, T, T, on which [picky] raises. *)
Lemma bootstrap_function_raises_at_witness :
  heap (one_array coin_tosses) !! 0%nat = Some coin_tosses
  ∧ (1 < Z.to_nat 3)%nat
  ∧ (∀ j : nat, (j < 1)%nat →
       ∃ v, picky (resample coin_tosses
                     (advance (j * length coin_tosses)
                        (rng (one_array coin_tosses)))) = Ok v)
  ∧ picky (resample coin_tosses
             (advance (1 * length coin_tosses) (rng (one_array coin_tosses))))
    = Err (ValueError "tails first")
  ∧ ∃ st',
      bootstrap_function no_junk 0%nat picky 3 (one_array coin_tosses)
      = (Err (ValueError "tails first"), st')
      ∧ heap st'
        = heap (one_array coin_tosses)
          ++ resamples coin_tosses (rng (one_array coin_tosses)) 2
      ∧ calls st'
        = calls (one_array coin_tosses)
          ++ resamples coin_tosses (rng (one_array coin_tosses)) 2
      ∧ rng st'
        = advance (2 * length coin_tosses) (rng (one_array coin_tosses)).
Proof.
  assert (1 < Z.to_nat 3)%nat as Hk by (vm_compute; lia).
  assert (∀ j : nat, (j < 1)%nat →
    ∃ v, picky (resample coin_tosses
                  (advance (j * length coin_tosses)
                     (rng (one_array coin_tosses)))) = Ok v) as Hbefore.
  { intros j Hj. destruct j as [|j]; [|lia]. exists (Fin 1). reflexivity. }
  split; [reflexivity|]. split; [exact Hk|]. split; [exact Hbefore|].
  split; [reflexivity|].
  apply (bootstrap_function_raises_at no_junk 0%nat coin_tosses picky 3
           (one_array coin_tosses) 1 (ValueError "tails first"));
    [reflexivity | exact Hk | exact Hbefore | reflexivity].
Defined.

Lemma bootstrap_function_ignores_junk_witness :
  heap (one_array coin_tosses) !! 0%nat = Some coin_tosses
  ∧ bootstrap_function no_junk 0%nat picky 3 (one_array coin_tosses)
    = bootstrap_function (λ _, Fin 1) 0%nat picky 3 (one_array coin_tosses).
Proof.
  split; [reflexivity|].
  apply (bootstrap_function_ignores_junk no_junk (λ _, Fin 1) 0%nat coin_tosses
           picky 3 (one_array coin_tosses)).
  reflexivity.
Defined.

Lemma bootstrap_function_only_allocates_witness :
  heap (one_array coin_tosses) !! 0%nat = Some coin_tosses
  ∧ ∃ new : list (list string),
      heap (bootstrap_function no_junk 0%nat picky 3 (one_array coin_tosses)).2
      = heap (one_array coin_tosses) ++ new
      ∧ Forall (λ ys, length ys = length coin_tosses
                      ∧ ∀ y, y ∈ ys → y ∈ coin_tosses) new
      ∧ (length new ≤ Z.to_nat 3)%nat.
Proof.
  split; [reflexivity|].
  apply (bootstrap_function_only_allocates no_junk 0%nat coin_tosses picky 3
           (one_array coin_tosses)).
  reflexivity.
Defined.

(** The first test of the notebook. *)
Lemma bootstrap_function_constant_witness :
  heap (one_int_array test_data) !! 0%nat = Some test_data
  ∧ 0 ≤ 10
  ∧ ∃ st',
      bootstrap_function no_junk 0%nat (constant_estimator (Fin 1)) 10
        (one_int_array test_data)
      = (Ok (replicate (Z.to_nat 10) (Fin 1)), st').
Proof.
  split; [reflexivity|]. split; [discriminate|].
  apply (bootstrap_function_constant no_junk 0%nat test_data (Fin 1) 10
           (one_int_array test_data)); [reflexivity | discriminate].
Defined.

Lemma bootstrap_function_fair_values_witness :
  coin_tosses ≠ [] ∧ 0 ≤ 4
  ∧ heap (one_array coin_tosses) !! 0%nat = Some coin_tosses
  ∧ ∃ (values : list pyfloat) st',
      bootstrap_function no_junk 0%nat fair 4 (one_array coin_tosses)
      = (Ok values, st')
      ∧ length values = Z.to_nat 4
      ∧ Forall (λ v, ∃ c : Z,
                  0 ≤ c ≤ Z.of_nat (length coin_tosses)
                  ∧ v = Fin (ratio c (Z.of_nat (length coin_tosses)))
                  ∧ (0 <= ratio c (Z.of_nat (length coin_tosses)) <= 1)%Q)
          values.
Proof.
  split; [discriminate|]. split; [discriminate|]. split; [reflexivity|].
  apply (bootstrap_function_fair_values no_junk 0%nat coin_tosses 4
           (one_array coin_tosses)); [discriminate | discriminate | reflexivity].
Defined.

Lemma bootstrap_function_fair_degenerate_witness :
  ["T"; "T"] ≠ [] ∧ 0 ≤ 3
  ∧ heap (one_array ["T"; "T"]) !! 0%nat = Some ["T"; "T"]
  ∧ ("H" ∉ ["T"; "T"] →
       (bootstrap_function no_junk 0%nat fair 3 (one_array ["T"; "T"])).1
       = Ok (replicate (Z.to_nat 3) (Fin 0)))
  ∧ ((∀ x, x ∈ ["T"; "T"] → x = "H") →
       (bootstrap_function no_junk 0%nat fair 3 (one_array ["T"; "T"])).1
       = Ok (replicate (Z.to_nat 3) (Fin 1))).
Proof.
  split; [discriminate|]. split; [discriminate|]. split; [reflexivity|].
  apply (bootstrap_function_fair_degenerate no_junk 0%nat ["T"; "T"] 3
           (one_array ["T"; "T"])); [discriminate | discriminate | reflexivity].
Defined.

Lemma print_resampled_fairness_prints_witness :
  coin_tosses ≠ []
  ∧ heap (one_array coin_tosses) !! 0%nat = Some coin_tosses
  ∧ ∃ (printed : list pyfloat) st',
      print_resampled_fairness 0%nat (one_array coin_tosses) = (Ok printed, st')
      ∧ length printed = 20%nat
      ∧ Forall (finite_between 0 1) printed
      ∧ heap st' !! 0%nat = Some coin_tosses.
Proof.
  split; [discriminate|]. split; [reflexivity|].
  apply (print_resampled_fairness_prints 0%nat coin_tosses
           (one_array coin_tosses)); [discriminate | reflexivity].
Defined.

Lemma print_resampled_fairness_empty_witness :
  heap (one_array []) !! 0%nat = Some []
  ∧ print_resampled_fairness 0%nat (one_array [])
    = (Err ZeroDivisionError, after_resample [] (one_array [])).
Proof.
  split; [reflexivity|].
  apply (print_resampled_fairness_empty 0%nat (one_array [])). reflexivity.
Defined.

(** The second test of the notebook. *)
Lemma bootstrap_function_mean_within_witness :
  test_data ≠ []
  ∧ (∀ x, x ∈ test_data → 0 ≤ x ≤ 1)
  ∧ exact_sums (Z.of_nat (length test_data)) 0 1
  ∧ 0 ≤ 10
  ∧ heap (one_int_array test_data) !! 0%nat = Some test_data
  ∧ ∃ (values : list pyfloat) st',
      bootstrap_function no_junk 0%nat array_mean 10 (one_int_array test_data)
      = (Ok values, st')
      ∧ length values = Z.to_nat 10
      ∧ Forall (finite_between (inject_Z 0) (inject_Z 1)) values
      ∧ (1 ≤ 10 → exact_sums 10 0 1 →
         finite_between (inject_Z 0) (inject_Z 1) (np_mean values)).
Proof.
  assert (∀ x, x ∈ test_data → 0 ≤ x ≤ 1) as Hrange.
  { intros x Hx. unfold test_data in Hx.
    repeat (apply elem_of_cons in Hx as [->|Hx]; [lia|]).
    by apply elem_of_nil in Hx. }
  assert (exact_sums (Z.of_nat (length test_data)) 0 1) as Hexact
    by (vm_compute; discriminate).
  split; [discriminate|]. split; [exact Hrange|]. split; [exact Hexact|].
  split; [discriminate|]. split; [reflexivity|].
  apply (bootstrap_function_mean_within no_junk 0%nat test_data 0 1 10
           (one_int_array test_data));
    [discriminate | exact Hrange | exact Hexact | discriminate | reflexivity].
Defined.

Lemma bias_and_variance_bounds_witness :
  coin_tosses ≠ [] ∧ 1 ≤ 200
  ∧ heap (one_array coin_tosses) !! 0%nat = Some coin_tosses
  ∧ ∃ (bias var : pyfloat) st',
      bias_and_variance no_junk 0%nat 200 (one_array coin_tosses)
      = (Ok (bias, var), st')
      ∧ finite_between (-1) 1 bias
      ∧ finite_between 0 1 var.
Proof.
  split; [discriminate|]. split; [discriminate|]. split; [reflexivity|].
  apply (bias_and_variance_bounds no_junk 0%nat coin_tosses 200
           (one_array coin_tosses)); [discriminate | discriminate | reflexivity].
Defined.

Lemma bias_and_variance_empty_witness :
  0 ≤ 200
  ∧ heap (one_array []) !! 0%nat = Some []
  ∧ ∃ st',
      bias_and_variance no_junk 0%nat 200 (one_array [])
      = (Err ZeroDivisionError, st').
Proof.
  split; [discriminate|]. split; [reflexivity|].
  apply (bias_and_variance_empty no_junk 0%nat 200 (one_array []));
    [discriminate | reflexivity].
Defined.

Lemma bias_and_variance_no_repetition_witness :
  coin_tosses ≠ []
  ∧ heap (one_array coin_tosses) !! 0%nat = Some coin_tosses
  ∧ bias_and_variance no_junk 0%nat 0 (one_array coin_tosses)
    = (Ok (NaN, NaN), one_array coin_tosses).
Proof.
  split; [discriminate|]. split; [reflexivity|].
  apply (bias_and_variance_no_repetition no_junk 0%nat coin_tosses
           (one_array coin_tosses)); [discriminate | reflexivity].
Defined.
